(** * type-is: media-type matching for HTTP headers

    A shallow embedding of [src/type-is.ts] ([is], [hasBody], [typeIs],
    [normalize], [mimeMatch], [normalizeType], [tryNormalizeType]) together
    with the parts of the JavaScript runtime and of the two packages the
    file imports ([content-type] and [mime-types]) that the code relies on.

    Conventions.
    - A JavaScript string is a [string]: one [ascii] per UTF-16 code unit,
      so the development covers strings whose code units are below 256.
    - A JavaScript value that the code may receive where a string is
      expected is a [value]; [VObject] is a plain object without
      properties and [VFunction] a function without properties.
    - Code that can raise runs in the [outcome] monad; [try]/[catch] is
      [catch_null].
    - A header object is a [gmap string string]. The code only reads
      [headers[k]], so a key bound to [undefined] and a missing key are
      the same header object here: both read as [None]. *)

From Stdlib Require Import Ascii String List ZArith NArith Bool Lia.
From stdpp Require Import base option gmap strings.
Import ListNotations.

Local Open Scope bool_scope.

(* ===================================================================== *)
(** ** JavaScript strings *)
(* ===================================================================== *)

Module Js.

(** The code unit of a character. *)
Definition code (c : ascii) : N := N_of_ascii c.

Definition between (lo hi : N) (c : ascii) : bool :=
  ((lo <=? code c) && (code c <=? hi))%N.

Definition is_char (k : N) (c : ascii) : bool := (code c =? k)%N.

(** [s.length] *)
Definition len (s : string) : Z := Z.of_nat (String.length s).

(** [a === b] on two strings, and [a !== b]. *)
Definition seq (a b : string) : bool := String.eqb a b.
Definition sne (a b : string) : bool := negb (String.eqb a b).

(** [String.prototype.toLowerCase], on code units below 256: the ASCII
    capitals and the Latin-1 capitals (U+00C0 to U+00DE but the
    multiplication sign U+00D7) move up by 32. *)
Definition is_upper (c : ascii) : bool := between 65 90 c.

Definition lower_char (c : ascii) : ascii :=
  if is_upper c || (between 192 222 c && negb (is_char 215 c))
  then ascii_of_N (code c + 32)
  else c.

Fixpoint toLowerCase (s : string) : string :=
  match s with
  | EmptyString => EmptyString
  | String c r => String (lower_char c) (toLowerCase r)
  end.

Fixpoint has_upper (s : string) : bool :=
  match s with
  | EmptyString => false
  | String c r => is_upper c || has_upper r
  end.

(** White space and line terminators below 256: TAB, LF, VT, FF, CR,
    SP and NBSP. [trim] and the string-to-number conversion share them. *)
Definition is_space (c : ascii) : bool :=
  between 9 13 c || is_char 32 c || is_char 160 c.

(** Every character of the string is in the class. *)
Fixpoint every (p : ascii -> bool) (s : string) : bool :=
  match s with
  | EmptyString => true
  | String c r => p c && every p r
  end.

(** Some character of the string is the given one. *)
Fixpoint contains (c : ascii) (s : string) : bool :=
  match s with
  | EmptyString => false
  | String d r => Ascii.eqb d c || contains c r
  end.

(** The string begins with the given one. *)
Fixpoint startsWith (p s : string) : bool :=
  match p, s with
  | EmptyString, _ => true
  | String _ _, EmptyString => false
  | String c p', String d s' => Ascii.eqb d c && startsWith p' s'
  end.

Definition all_space (s : string) : bool := every is_space s.

Fixpoint trimStart (s : string) : string :=
  match s with
  | EmptyString => EmptyString
  | String c r => if is_space c then trimStart r else s
  end.

Fixpoint trimEnd (s : string) : string :=
  match s with
  | EmptyString => EmptyString
  | String c r =>
      if is_space c && all_space r then EmptyString else String c (trimEnd r)
  end.

(** [s.trim()] *)
Definition trim (s : string) : string := trimEnd (trimStart s).

(** [s.indexOf(c)] for a one-character needle; [-1] when there is none. *)
Fixpoint indexOf (c : ascii) (s : string) : Z :=
  match s with
  | EmptyString => (-1)%Z
  | String d r =>
      if Ascii.eqb d c then 0%Z
      else let i := indexOf c r in
           if (i =? -1)%Z then (-1)%Z else (i + 1)%Z
  end.

(** [s.slice(start)] and [s.slice(start, stop)]: a negative index counts
    from the end, and both are clamped to the string. *)
Definition clamp (n : Z) (i : Z) : Z :=
  if (i <? 0)%Z then Z.max (n + i) 0 else Z.min i n.

Definition slice (s : string) (start : Z) (stop : option Z) : string :=
  let n := len s in
  let from := clamp n start in
  let to := match stop with None => n | Some e => clamp n e end in
  String.substring (Z.to_nat from) (Z.to_nat (to - from)) s.

(** [s.split(c)] for a one-character separator. *)
Fixpoint split (c : ascii) (s : string) : list string :=
  match s with
  | EmptyString => [EmptyString]
  | String d r =>
      if Ascii.eqb d c then EmptyString :: split c r
      else match split c r with
           | [] => [String d EmptyString]
           | h :: t => String d h :: t
           end
  end.

(** [s[0]]: the first character as a one-character string, if any. *)
Definition first (s : string) : option string :=
  match s with
  | EmptyString => None
  | String c _ => Some (String c EmptyString)
  end.

(** The string from position [n] on. *)
Fixpoint drop (n : nat) (s : string) : string :=
  match n, s with
  | O, _ => s
  | S n', String _ r => drop n' r
  | S _, EmptyString => EmptyString
  end.

(** Number of occurrences of a character. *)
Fixpoint count (c : ascii) (s : string) : nat :=
  match s with
  | EmptyString => 0
  | String d r => (if Ascii.eqb d c then 1 else 0) + count c r
  end.

End Js.

(* ===================================================================== *)
(** ** Values and exceptions *)
(* ===================================================================== *)

#[warnings="-register-all"]
Inductive value : Type :=
| VUndefined
| VNull
| VBoolean (b : bool)
| VNumber (n : Z)
| VString (s : string)
| VFunction
| VObject
| VArray (items : list value).

Definition VFalse : value := VBoolean false.

Inductive exn : Type :=
| TypeError (message : string)
| RangeError (message : string).

Inductive outcome (A : Type) : Type :=
| Ret (a : A)
| Throw (e : exn).

Arguments Ret {A} a.
Arguments Throw {A} e.

Definition bind {A B : Type} (m : outcome A) (k : A -> outcome B) : outcome B :=
  match m with
  | Ret a => k a
  | Throw e => Throw e
  end.

Notation "'let*' x ':=' m 'in' k" := (bind m (fun x => k))
  (at level 10, x name, m at level 100, k at level 200).

(** [try { return m } catch (err) { return null }] *)
Definition catch_null {A : Type} (m : outcome A) : option A :=
  match m with
  | Ret a => Some a
  | Throw _ => None
  end.

Definition returns {A : Type} (m : outcome A) : Prop := exists a, m = Ret a.

(** [!v] *)
Definition falsy (v : value) : bool :=
  match v with
  | VUndefined | VNull | VBoolean false => true
  | VNumber n => (n =? 0)%Z
  | VString s => Js.seq s ""
  | _ => false
  end.

(** [Array.isArray(v)] *)
Definition isArray (v : value) : bool :=
  match v with VArray _ => true | _ => false end.

(** [a ?? b] *)
Definition nullish (a b : value) : value :=
  match a with VUndefined | VNull => b | _ => a end.

(** [v === s] for a string [s]. *)
Definition is_string (s : string) (v : value) : bool :=
  match v with VString t => Js.seq t s | _ => false end.

(** [v[0]]: reading a property of [undefined] or [null] raises; a string
    and an array have an element there or not; anything else has none. *)
Definition index0 (v : value) : outcome value :=
  match v with
  | VUndefined | VNull =>
      Throw (TypeError "Cannot read properties of undefined or null")
  | VString s =>
      Ret (match Js.first s with Some c => VString c | None => VUndefined end)
  | VArray xs => Ret (nth 0 xs VUndefined)
  | _ => Ret VUndefined
  end.

Fixpoint array_indexOf (needle : string) (xs : list value) : Z :=
  match xs with
  | [] => (-1)%Z
  | x :: r =>
      if is_string needle x then 0%Z
      else let i := array_indexOf needle r in
           if (i =? -1)%Z then (-1)%Z else (i + 1)%Z
  end.

(** [v.indexOf(c)]: strings and arrays have the method; calling it on
    anything else raises. *)
Definition call_indexOf (v : value) (c : ascii) : outcome Z :=
  match v with
  | VString s => Ret (Js.indexOf c s)
  | VArray xs => Ret (array_indexOf (String c EmptyString) xs)
  | VUndefined | VNull =>
      Throw (TypeError "Cannot read properties of undefined or null")
  | _ => Throw (TypeError "indexOf is not a function")
  end.

(** [v.split(c)]: only strings have the method. *)
Definition call_split (v : value) (c : ascii) : outcome (list string) :=
  match v with
  | VString s => Ret (Js.split c s)
  | VUndefined | VNull =>
      Throw (TypeError "Cannot read properties of undefined or null")
  | _ => Throw (TypeError "split is not a function")
  end.

(* ===================================================================== *)
(** ** The [content-type] package *)
(* ===================================================================== *)

(** [import contentType from 'content-type'] (dependency [^1.0.5]); the
    package is not among the sources, so [parse] and [format] are modelled
    here after section 4.1 of the specification and RFC 7231, 3.1.1.1. *)
Module ContentType.

Definition params : Type := list (string * string).

(** The object [parse] returns and [format] takes. *)
Record t : Type := mk { type : string; parameters : params }.

Definition DQUOTE : ascii := ascii_of_N 34.
Definition BACKSLASH : ascii := ascii_of_N 92.

(** Modelled from the spec: the token grammar of type, subtype and
    parameter names, "letters, digits, and a restricted set of
    punctuation", which is the class [[!#$%&'*+.^_`|~0-9A-Za-z-]]. *)
Definition tchar (c : ascii) : bool :=
  Js.between 48 57 c || Js.between 65 90 c || Js.between 97 122 c
  || Js.is_char 33 c || Js.between 35 39 c || Js.between 42 43 c
  || Js.between 45 46 c || Js.between 94 96 c
  || Js.is_char 124 c || Js.is_char 126 c.

Definition all_tchar (s : string) : bool := Js.every tchar s.

(** The longest run of token characters at the head, and what follows. *)
Fixpoint span_tchar (s : string) : string * string :=
  match s with
  | EmptyString => (EmptyString, EmptyString)
  | String c r =>
      if tchar c
      then let (tok, rest) := span_tchar r in (String c tok, rest)
      else (EmptyString, s)
  end.

(** [TOKEN_REGEXP.test(s)]: one or more token characters. *)
Definition TOKEN_REGEXP_test (s : string) : bool :=
  Js.sne s "" && all_tchar s.

(** Modelled from the spec: [TYPE_REGEXP.test(s)], the shape
    [type "/" subtype] with both sides tokens (so no second slash). *)
Definition TYPE_REGEXP_test (s : string) : bool :=
  let (ty, rest) := span_tchar s in
  match rest with
  | String c sub => Js.sne ty "" && Js.is_char 47 c && TOKEN_REGEXP_test sub
  | EmptyString => false
  end.

(** [TEXT_REGEXP.test(s)]: one or more of VT, SP to [~], and 128 to 255. *)
Definition text_char (c : ascii) : bool :=
  Js.is_char 11 c || Js.between 32 126 c || Js.between 128 255 c.

Definition TEXT_REGEXP_test (s : string) : bool :=
  Js.sne s "" && Js.every text_char s.

(** Characters of a quoted string: as they are, or after a backslash. *)
Definition qdtext (c : ascii) : bool :=
  Js.is_char 11 c || Js.between 32 33 c || Js.between 35 91 c
  || Js.between 93 126 c || Js.between 128 255 c.

Definition qpair (c : ascii) : bool :=
  Js.is_char 11 c || Js.between 32 255 c.

Fixpoint skip_sp (s : string) : string :=
  match s with
  | String c r => if Js.is_char 32 c then skip_sp r else s
  | EmptyString => EmptyString
  end.

(** After an opening quote: the text up to the closing quote, escapes
    kept, and what follows the closing quote. *)
Fixpoint scan_quoted (s : string) : option (string * string) :=
  match s with
  | EmptyString => None
  | String c r =>
      if Ascii.eqb c DQUOTE then Some (EmptyString, r)
      else if Ascii.eqb c BACKSLASH then
        match r with
        | String d r' =>
            if qpair d then
              match scan_quoted r' with
              | Some (q, rest) => Some (String c (String d q), rest)
              | None => None
              end
            else None
        | EmptyString => None
        end
      else if qdtext c then
        match scan_quoted r with
        | Some (q, rest) => Some (String c q, rest)
        | None => None
        end
      else None
  end.

(** One match of [PARAM_REGEXP] at the head of [s]:
    [; *(token) *= *(quoted-string|token) *]. The result is the name,
    the value as written (quotes included) and what follows the match. *)
Definition scan_param (s : string) : option (string * string * string) :=
  match s with
  | String semi r =>
      if Js.is_char 59 semi then
        let (key, r1) := span_tchar (skip_sp r) in
        if Js.seq key "" then None else
        match skip_sp r1 with
        | String e r2 =>
            if Js.is_char 61 e then
              match skip_sp r2 with
              | String q r4 =>
                  if Ascii.eqb q DQUOTE then
                    match scan_quoted r4 with
                    | Some (raw, r5) =>
                        Some (key,
                              String DQUOTE (raw ++ String DQUOTE EmptyString),
                              skip_sp r5)
                    | None => None
                    end
                  else
                    let (val, r5) := span_tchar (String q r4) in
                    if Js.seq val "" then None
                    else Some (key, val, skip_sp r5)
              | EmptyString => None
              end
            else None
        | EmptyString => None
        end
      else None
  | EmptyString => None
  end.

(** [value.replace(QESC_REGEXP, '$1')]: drop the backslash of each pair. *)
Fixpoint unescape (s : string) : string :=
  match s with
  | EmptyString => EmptyString
  | String c r =>
      if Ascii.eqb c BACKSLASH then
        match r with
        | String d r' =>
            if qpair d then String d (unescape r')
            else String c (unescape r)
        | EmptyString => String c EmptyString
        end
      else String c (unescape r)
  end.

(** The value of a parameter: quotes removed and escapes undone. *)
Definition param_value (v : string) : string :=
  match v with
  | String q _ =>
      if Ascii.eqb q DQUOTE then
        let inner := Js.slice v 1 (Some (-1)%Z) in
        if (Js.indexOf BACKSLASH inner =? -1)%Z then inner
        else unescape inner
      else v
  | EmptyString => v
  end.

(** [obj.parameters[key] = value] *)
Fixpoint set_param (ps : params) (k v : string) : params :=
  match ps with
  | [] => [(k, v)]
  | (k', v') :: r =>
      if Js.seq k' k then (k, v) :: r else (k', v') :: set_param r k v
  end.

(** The loop over [PARAM_REGEXP.exec(header)]: every match has to start
    where the previous one stopped, and the last one has to end the
    header. One unit of fuel per match. *)
Fixpoint parse_parameters (fuel : nat) (rest : string) (acc : params)
  : outcome params :=
  match rest with
  | EmptyString => Ret acc
  | String _ _ =>
      match fuel with
      | O => Throw (TypeError "invalid parameter format")
      | S fuel' =>
          match scan_param rest with
          | Some (key, val, rest') =>
              parse_parameters fuel' rest'
                (set_param acc (Js.toLowerCase key) (param_value val))
          | None => Throw (TypeError "invalid parameter format")
          end
      end
  end.

(** The header cut at its first [;]: what is before it, and the rest
    from the [;] on, if there is one. *)
Fixpoint cut_semi (s : string) : string * option string :=
  match s with
  | EmptyString => (EmptyString, None)
  | String c r =>
      if Js.is_char 59 c then (EmptyString, Some s)
      else let (h, t) := cut_semi r in (String c h, t)
  end.

(** Modelled from the spec: [contentType.parse(string)], which is not
    among the sources. The argument has to be a non-empty string (the
    objects modelled here carry no header); the text before the first
    [;] is trimmed and has to be [type/subtype]; the type is lowercased;
    the parameters have to be well formed. *)
Definition parse (v : value) : outcome t :=
  if falsy v then Throw (TypeError "argument string is required") else
  match v with
  | VString header =>
      let (head, tail) := cut_semi header in
      let type := Js.trim head in
      if negb (TYPE_REGEXP_test type)
      then Throw (TypeError "invalid media type")
      else
        match tail with
        | None => Ret (mk (Js.toLowerCase type) [])
        | Some rest =>
            let* ps := parse_parameters (String.length rest) rest [] in
            Ret (mk (Js.toLowerCase type) ps)
        end
  | VObject | VArray _ =>
      Throw (TypeError "content-type header is missing from object")
  | _ => Throw (TypeError "argument string is required to be a string")
  end.

(** [Object.keys(parameters).sort()] with the values carried along. *)
Fixpoint insert_sorted (kv : string * string) (ps : params) : params :=
  match ps with
  | [] => [kv]
  | kv' :: r =>
      if String.leb (fst kv) (fst kv') then kv :: ps
      else kv' :: insert_sorted kv r
  end.

Definition sort_params (ps : params) : params :=
  fold_right insert_sorted [] ps.

(** [str.replace(QUOTE_REGEXP, '\\$1')]: a backslash before every
    backslash and every quote. *)
Fixpoint quote_escape (s : string) : string :=
  match s with
  | EmptyString => EmptyString
  | String c r =>
      if Ascii.eqb c BACKSLASH || Ascii.eqb c DQUOTE
      then String BACKSLASH (String c (quote_escape r))
      else String c (quote_escape r)
  end.

Definition qstring (val : string) : outcome string :=
  if TOKEN_REGEXP_test val then Ret val
  else if Js.sne val "" && negb (TEXT_REGEXP_test val)
  then Throw (TypeError "invalid parameter value")
  else Ret (String DQUOTE (quote_escape val ++ String DQUOTE EmptyString)).

Fixpoint format_parameters (ps : params) (acc : string) : outcome string :=
  match ps with
  | [] => Ret acc
  | (k, v) :: r =>
      if negb (TOKEN_REGEXP_test k)
      then Throw (TypeError "invalid parameter name")
      else let* q := qstring v in
           format_parameters r (acc ++ "; " ++ k ++ "=" ++ q)
  end.

(** Modelled from the spec: [contentType.format(obj)], which is not
    among the sources: the type, checked once more, followed by the
    parameters in the order of their names. *)
Definition format (obj : t) : outcome string :=
  if Js.seq (type obj) "" || negb (TYPE_REGEXP_test (type obj))
  then Throw (TypeError "invalid type")
  else format_parameters (sort_params (parameters obj)) (type obj).

End ContentType.

(* ===================================================================== *)
(** ** Numbers from strings *)
(* ===================================================================== *)

(** [isNaN(v)] converts [v] to a number first. For a string that is the
    StringNumericLiteral grammar of ECMAScript: white space around an
    optional literal, and the result is NaN exactly when the string is not
    in the grammar. *)
Module StringToNumber.

Definition digit (c : ascii) : bool := Js.between 48 57 c.
Definition bin_digit (c : ascii) : bool := Js.between 48 49 c.
Definition oct_digit (c : ascii) : bool := Js.between 48 55 c.
Definition hex_digit (c : ascii) : bool :=
  digit c || Js.between 65 70 c || Js.between 97 102 c.

(** One or more characters, all in the class. *)
Definition some_of (p : ascii -> bool) (s : string) : bool :=
  Js.sne s "" && Js.every p s.

Fixpoint span_digits (s : string) : string * string :=
  match s with
  | EmptyString => (EmptyString, EmptyString)
  | String c r =>
      if digit c
      then let (ds, rest) := span_digits r in (String c ds, rest)
      else (EmptyString, s)
  end.

(** An optional [+] or [-] taken off the head. *)
Definition unsigned (s : string) : string :=
  match s with
  | String c r => if Js.is_char 43 c || Js.is_char 45 c then r else s
  | EmptyString => s
  end.

(** ExponentPart, optional: nothing, or [e]/[E] and a signed integer. *)
Definition exponent_opt (s : string) : bool :=
  match s with
  | EmptyString => true
  | String c r =>
      (Js.is_char 101 c || Js.is_char 69 c) && some_of digit (unsigned r)
  end.

Definition StrUnsignedDecimalLiteral (s : string) : bool :=
  Js.seq s "Infinity" ||
  let (int, r) := span_digits s in
  match r with
  | String c r' =>
      if Js.is_char 46 c then
        let (frac, r'') := span_digits r' in
        (Js.sne int "" || Js.sne frac "") && exponent_opt r''
      else Js.sne int "" && exponent_opt r
  | EmptyString => Js.sne int ""
  end.

(** [0b], [0o] and [0x] literals, unsigned. *)
Definition NonDecimalIntegerLiteral (s : string) : bool :=
  match s with
  | String z (String k r) =>
      Js.is_char 48 z &&
      (((Js.is_char 98 k || Js.is_char 66 k) && some_of bin_digit r)
       || ((Js.is_char 111 k || Js.is_char 79 k) && some_of oct_digit r)
       || ((Js.is_char 120 k || Js.is_char 88 k) && some_of hex_digit r))
  | _ => false
  end.

Definition StrNumericLiteral (s : string) : bool :=
  NonDecimalIntegerLiteral s || StrUnsignedDecimalLiteral (unsigned s).

(** The string converts to a number that is not NaN; the empty string
    and white space alone convert to 0. *)
Definition is_numeric (s : string) : bool :=
  let t := Js.trim s in
  Js.seq t "" || StrNumericLiteral t.

End StringToNumber.

(** [isNaN(headers[k])] for a header read: [undefined] converts to NaN. *)
Definition isNaN (v : option string) : bool :=
  match v with
  | None => true
  | Some s => negb (StringToNumber.is_numeric s)
  end.

(* ===================================================================== *)
(** ** The [mime-types] package *)
(* ===================================================================== *)

(** [import mime from 'mime-types']; the package and its table of
    extensions are not among the sources. The table is a parameter of the
    development, [types : string -> option string]. *)
Module Mime.

(** The text after the last [.], when there is a dot. *)
Fixpoint after_last_dot (s : string) : option string :=
  match s with
  | EmptyString => None
  | String c r =>
      match after_last_dot r with
      | Some e => Some e
      | None => if Js.is_char 46 c then Some r else None
      end
  end.

(** [extname('x.' + path).toLowerCase().substr(1)], for a path without
    a slash: the whole path when it has no dot. *)
Definition extension (path : string) : string :=
  Js.toLowerCase
    (match after_last_dot path with Some e => e | None => path end).

(** Modelled from the spec: [mime.lookup(path)], which is not among the
    sources: "look up its registered canonical media type in an
    extension -> media-type table. Leading [.] is stripped before lookup
    if present. Unregistered extension -> [false]". *)
Definition lookup (types : string -> option string) (path : string) : value :=
  let ext := extension path in
  if Js.seq ext "" then VFalse
  else match types ext with
       | Some ty => if Js.seq ty "" then VFalse else VString ty
       | None => VFalse
       end.

(** A few rows of the registry, for examples. *)
Definition sample (ext : string) : option string :=
  if Js.seq ext "json" then Some "application/json"
  else if Js.seq ext "png" then Some "image/png"
  else if Js.seq ext "jpeg" then Some "image/jpeg"
  else if Js.seq ext "html" then Some "text/html"
  else None.

End Mime.

(* ===================================================================== *)
(** ** [src/type-is.ts] *)
(* ===================================================================== *)

(** [headers[k]] as a value. *)
Definition header (headers : gmap string string) (k : string) : value :=
  match headers !! k with
  | Some s => VString s
  | None => VUndefined
  end.

(** [hasBody(headers)] *)
Definition hasBody (headers : gmap string string) : bool :=
  bool_decide (headers !! "transfer-encoding" ≠ None)
  || negb (isNaN (headers !! "content-length")).

(** [normalizeType(value)]: parse, drop the parameters, format. *)
Definition normalizeType (v : value) : outcome string :=
  let* type := ContentType.parse v in
  let type := ContentType.mk (ContentType.type type) [] in
  ContentType.format type.

(** [tryNormalizeType(value)]: [None] is [null]. *)
Definition tryNormalizeType (v : value) : option string :=
  if falsy v then None
  else catch_null (normalizeType v).

(** [mimeMatch(expected, actual)] *)
Definition mimeMatch (expected actual : value) : outcome bool :=
  match expected with
  | VBoolean false => Ret false
  | _ =>
      let* actualParts := call_split actual "/" in
      let* expectedParts := call_split expected "/" in
      if negb (length actualParts =? 2) || negb (length expectedParts =? 2)
      then Ret false
      else
        let a0 := nth 0 actualParts "" in
        let a1 := nth 1 actualParts "" in
        let e0 := nth 0 expectedParts "" in
        let e1 := nth 1 expectedParts "" in
        if Js.sne e0 "*" && Js.sne e0 a0 then Ret false
        else if Js.seq (Js.slice e1 0 (Some 2%Z)) "*+" then
          Ret ((Js.len e1 <=? Js.len a1 + 1)%Z
               && Js.seq (Js.slice e1 1 None) (Js.slice a1 (1 - Js.len e1) None))
        else if Js.sne e1 "*" && Js.sne e1 a1 then Ret false
        else Ret true
  end.

(** The value the loop of [is] returns on a match:
    [type[0] === '+' || type.indexOf('*') !== -1 ? actual : type]. *)
Definition matched (type : value) (actual : string) : outcome value :=
  let* c := index0 type in
  if is_string "+" c then Ret (VString actual)
  else
    let* i := call_indexOf type "*" in
    if negb (i =? -1)%Z then Ret (VString actual) else Ret type.

(** The flattened arguments: [new Array(arguments.length - 1)] filled
    with [arguments[i + 1]]. *)
Definition rest_arguments (arguments : list value) : outcome (list value) :=
  match arguments with
  | [] => Throw (RangeError "Invalid array length")
  | _ :: rest => Ret rest
  end.

Section TypeIs.

(** The table of the [mime-types] package. *)
Variable types : string -> option string.

(** [normalize(type)] *)
Definition normalize (type : value) : value :=
  match type with
  | VString s =>
      if Js.seq s "urlencoded" then VString "application/x-www-form-urlencoded"
      else if Js.seq s "multipart" then VString "multipart/*"
      else if is_string "+" (match Js.first s with
                             | Some c => VString c
                             | None => VUndefined
                             end)
      then VString ("*/*" ++ s)
      else if (Js.indexOf "/" s =? -1)%Z then Mime.lookup types s
      else VString s
  | _ => VFalse
  end.

(** The loop of [is] over the acceptable types. *)
Fixpoint is_loop (actual : string) (acceptable : list value) : outcome value :=
  match acceptable with
  | [] => Ret VFalse
  | type :: later =>
      let normalized := nullish (normalize type) VFalse in
      let* hit := mimeMatch normalized (VString actual) in
      if hit then matched type actual
      else is_loop actual later
  end.

(** [is(actual_, acceptable)] ([is] is reserved here, hence [is_]),
    called with the argument list [arguments]: [actual_] and [acceptable] are its first two entries,
    [undefined] when it is shorter. *)
Definition is_ (arguments : list value) : outcome value :=
  let actual_ := nth 0 arguments VUndefined in
  let acceptable := nth 1 arguments VUndefined in
  match tryNormalizeType actual_ with
  | None => Ret VFalse
  | Some actual =>
      if Js.seq actual "" then Ret VFalse
      else
        let* acceptable :=
          match acceptable with
          | VArray items => Ret items
          | _ => rest_arguments arguments
          end in
        match acceptable with
        | [] => Ret (VString actual)
        | _ :: _ => is_loop actual acceptable
        end
  end.

(** [typeIs(headers, acceptable)], called with [headers] followed by
    the argument list [rest]. *)
Definition typeIs (headers : gmap string string) (rest : list value)
  : outcome value :=
  if negb (hasBody headers) then Ret VNull
  else
    let acceptable :=
      match nth 0 rest VUndefined with
      | VArray items => VArray items
      | _ => VArray rest
      end in
    let value := header headers "content-type" in
    is_ [value; acceptable].

End TypeIs.

(** The header object [createHeaders(type)] of the test-suite. *)
Definition createHeaders (type : string) : gmap string string :=
  if Js.seq type "" then {[ "transfer-encoding" := "chunked" ]}
  else <[ "content-type" := type ]> {[ "transfer-encoding" := "chunked" ]}.

(** [is(actual, [p1, ..., pn])] with strings. *)
Definition is_strings (actual : string) (patterns : list string) : outcome value :=
  is_ Mime.sample [VString actual; VArray (map VString patterns)].

(** [typeIs(createHeaders(type), [p1, ..., pn])] with strings. *)
Definition typeIs_strings (type : string) (patterns : list string) : outcome value :=
  typeIs Mime.sample (createHeaders type) [VArray (map VString patterns)].

(* ===================================================================== *)
(** ** Notions the statements use *)
(* ===================================================================== *)

(** A character of a well-formed media type: a token character or the
    slash. *)
Definition media_char (c : ascii) : bool :=
  ContentType.tchar c || Js.is_char 47 c.

(** The part of a header that names the media type: the text before the
    first semicolon, trimmed. *)
Definition media_part (s : string) : string :=
  Js.trim (fst (ContentType.cut_semi s)).

(** A result of [is]: [false] or a string. *)
Definition string_or_false (v : value) : Prop :=
  v = VFalse \/ exists s, v = VString s.

(** What [is] does with one acceptable type: the test of its loop. *)
Definition probe (types : string -> option string) (actual : string)
  (type : value) : outcome bool :=
  mimeMatch (nullish (normalize types type) VFalse) (VString actual).

(** A header with two slashes: the second one is inside a quoted
    parameter value. *)
Definition quoted_slash_header : string :=
  "text/html; a=" ++ String ContentType.DQUOTE
                       ("x/y" ++ String ContentType.DQUOTE EmptyString).

(* ===================================================================== *)
(** ** The embedding on the examples of the test-suite *)
(* ===================================================================== *)

Example slice_neg : Js.slice "html+xml" (-4) None = "+xml".
Proof. reflexivity. Qed.

Example split_two : Js.split "/" "text/html" = ["text"; "html"].
Proof. reflexivity. Qed.

Example split_trailing : Js.split "/" "text/html/" = ["text"; "html"; ""].
Proof. reflexivity. Qed.

Example trim_both : Js.trim "  text/html " = "text/html".
Proof. reflexivity. Qed.

Example isNaN_zero : isNaN (Some "0") = false.
Proof. reflexivity. Qed.

Example isNaN_float : isNaN (Some " -12.5e+3 ") = false.
Proof. reflexivity. Qed.

Example isNaN_hex : isNaN (Some "0x1F") = false.
Proof. reflexivity. Qed.

Example isNaN_bogus : isNaN (Some "bogus") = true.
Proof. reflexivity. Qed.

Example isNaN_partial : isNaN (Some "12px") = true.
Proof. reflexivity. Qed.

Example lookup_json : Mime.lookup Mime.sample "json" = VString "application/json".
Proof. reflexivity. Qed.

Example lookup_dot_png : Mime.lookup Mime.sample ".png" = VString "image/png".
Proof. reflexivity. Qed.

Example lookup_upper : Mime.lookup Mime.sample "JSON" = VString "application/json".
Proof. reflexivity. Qed.

Example lookup_unknown : Mime.lookup Mime.sample "unknownext" = VFalse.
Proof. reflexivity. Qed.

Example test_typeIs_params :
  typeIs_strings "text/html; charset=utf-8" ["text/*"] = Ret (VString "text/html")
  /\ typeIs_strings "text/html ; charset=utf-8" ["text/*"] = Ret (VString "text/html")
  /\ typeIs_strings "text/HTML" ["text/*"] = Ret (VString "text/html").
Proof. repeat split. Qed.

Example test_invalid_patterns :
  typeIs_strings "text/html" ["text/html/"] = Ret VFalse
  /\ typeIs Mime.sample (createHeaders "text/html")
       [VArray [VUndefined; VNull; VBoolean true; VFunction]] = Ret VFalse
  /\ is_ Mime.sample
       [VString "text/html"; VArray [VUndefined; VNull; VBoolean true; VFunction]]
     = Ret VFalse.
Proof. repeat split. Qed.

Example test_no_body :
  typeIs Mime.sample ∅ [] = Ret VNull
  /\ typeIs Mime.sample ∅ [VArray [VString "image/*"]] = Ret VNull
  /\ typeIs Mime.sample ∅ [VString "image/*"; VString "text/*"] = Ret VNull
  /\ typeIs Mime.sample {[ "content-type" := "text/html" ]} [VString "*/*"]
     = Ret VNull.
Proof. repeat split. Qed.

Example test_no_content_type :
  typeIs Mime.sample (createHeaders "") [] = Ret VFalse
  /\ typeIs_strings "" ["image/*"] = Ret VFalse
  /\ typeIs_strings "" ["text/*"; "image/*"] = Ret VFalse
  /\ typeIs Mime.sample (createHeaders "image/png") [] = Ret (VString "image/png").
Proof. repeat split. Qed.

Example test_one_type :
  is_strings "image/png" ["png"] = Ret (VString "png")
  /\ is_strings "image/png" [".png"] = Ret (VString ".png")
  /\ is_strings "image/png" ["image/png"] = Ret (VString "image/png")
  /\ is_strings "image/png" ["image/*"] = Ret (VString "image/png")
  /\ is_strings "image/png" ["*/png"] = Ret (VString "image/png")
  /\ is_strings "image/png" ["jpeg"] = Ret VFalse
  /\ is_strings "image/png" [".jpeg"] = Ret VFalse
  /\ is_strings "image/png" ["image/jpeg"] = Ret VFalse
  /\ is_strings "image/png" ["text/*"] = Ret VFalse
  /\ is_strings "image/png" ["*/jpeg"] = Ret VFalse
  /\ is_strings "image/png" ["bogus"] = Ret VFalse
  /\ is_strings "image/png" ["something/bogus*"] = Ret VFalse.
Proof. repeat split. Qed.

Example test_multiple_types :
  is_ Mime.sample [VString "image/png"; VString ".png"] = Ret (VString ".png")
  /\ is_strings "image/png" ["text/*"; "image/*"] = Ret (VString "image/png")
  /\ is_strings "image/png" ["image/*"; "text/*"] = Ret (VString "image/png")
  /\ is_strings "image/png" ["image/*"; "image/png"] = Ret (VString "image/png")
  /\ is_ Mime.sample [VString "image/png"; VString "image/png"; VString "image/*"]
     = Ret (VString "image/png")
  /\ is_strings "image/png" ["text/*"; "application/*"] = Ret VFalse
  /\ is_strings "image/png" ["text/html"; "text/plain"; "application/json"]
     = Ret VFalse.
Proof. repeat split. Qed.

Example test_suffix :
  is_ Mime.sample [VString "application/vnd+json"; VString "+json"]
  = Ret (VString "application/vnd+json")
  /\ is_strings "application/vnd+json" ["application/vnd+json"]
     = Ret (VString "application/vnd+json")
  /\ is_strings "application/vnd+json" ["application/*+json"]
     = Ret (VString "application/vnd+json")
  /\ is_strings "application/vnd+json" ["*/vnd+json"]
     = Ret (VString "application/vnd+json")
  /\ is_strings "application/vnd+json" ["application/json"] = Ret VFalse
  /\ is_strings "application/vnd+json" ["text/*+json"] = Ret VFalse.
Proof. repeat split. Qed.

Example test_any :
  is_strings "text/html" ["*/*"] = Ret (VString "text/html")
  /\ is_strings "application/vnd+json" ["*/*"] = Ret (VString "application/vnd+json")
  /\ is_strings "bogus" ["*/*"] = Ret VFalse.
Proof. repeat split. Qed.

Example test_no_media_type :
  is_ Mime.sample [] = Ret VFalse
  /\ is_ Mime.sample [VString ""; VArray [VString "application/json"]] = Ret VFalse
  /\ is_ Mime.sample [VNull; VArray [VString "image/*"]] = Ret VFalse
  /\ is_ Mime.sample [VUndefined; VArray [VString "text/*"; VString "image/*"]]
     = Ret VFalse
  /\ is_ Mime.sample [VString "image/png"] = Ret (VString "image/png").
Proof. repeat split. Qed.

Example test_aliases :
  is_strings "application/x-www-form-urlencoded" ["urlencoded"]
  = Ret (VString "urlencoded")
  /\ is_strings "application/x-www-form-urlencoded" ["json"; "urlencoded"]
     = Ret (VString "urlencoded")
  /\ is_strings "application/x-www-form-urlencoded" ["urlencoded"; "json"]
     = Ret (VString "urlencoded")
  /\ is_strings "multipart/form-data" ["multipart/*"]
     = Ret (VString "multipart/form-data")
  /\ is_strings "multipart/form-data" ["multipart"] = Ret (VString "multipart").
Proof. repeat split. Qed.

Example test_hasBody :
  hasBody {[ "content-length" := "1" ]} = true
  /\ hasBody {[ "content-length" := "0" ]} = true
  /\ hasBody {[ "content-length" := "bogus" ]} = false
  /\ hasBody {[ "transfer-encoding" := "chunked" ]} = true.
Proof. repeat split. Qed.

Example test_mimeMatch :
  mimeMatch VFalse (VString "text/html") = Ret false
  /\ mimeMatch (VString "text/html") (VString "text/html") = Ret true
  /\ mimeMatch (VString "text/html") (VString "text/plain") = Ret false
  /\ mimeMatch (VString "text/html") (VString "application/html") = Ret false
  /\ mimeMatch (VString "text/html") (VString "text/html+xml") = Ret false
  /\ mimeMatch (VString "*/html") (VString "application/html") = Ret true
  /\ mimeMatch (VString "*/html") (VString "text/xml") = Ret false
  /\ mimeMatch (VString "text/*") (VString "text/html+xml") = Ret true
  /\ mimeMatch (VString "text/*") (VString "application/xml") = Ret false
  /\ mimeMatch (VString "*/*") (VString "text/html+xml") = Ret true
  /\ mimeMatch (VString "*/*+xml") (VString "text/html+xml") = Ret true
  /\ mimeMatch (VString "*/*+xml") (VString "text/html") = Ret false.
Proof. repeat split. Qed.

Example test_normalize :
  normalize Mime.sample VObject = VFalse
  /\ normalize Mime.sample (VArray []) = VFalse
  /\ normalize Mime.sample (VNumber 42) = VFalse
  /\ normalize Mime.sample VNull = VFalse
  /\ normalize Mime.sample VFunction = VFalse
  /\ normalize Mime.sample (VString "json") = VString "application/json"
  /\ normalize Mime.sample (VString "+json") = VString "*/*+json"
  /\ normalize Mime.sample (VString "application/json") = VString "application/json"
  /\ normalize Mime.sample (VString "*/*") = VString "*/*"
  /\ normalize Mime.sample (VString "image/*") = VString "image/*"
  /\ normalize Mime.sample (VString "unknown") = VFalse
  /\ normalize Mime.sample (VString "urlencoded")
     = VString "application/x-www-form-urlencoded"
  /\ normalize Mime.sample (VString "multipart") = VString "multipart/*".
Proof. repeat split. Qed.

(* ===================================================================== *)
(** ** Facts about characters and strings *)
(* ===================================================================== *)

Ltac each_char c := destruct c as [[] [] [] [] [] [] [] []].

Lemma seq_true (a b : string) : Js.seq a b = true <-> a = b.
Proof. unfold Js.seq. apply String.eqb_eq. Qed.

Lemma seq_refl (a : string) : Js.seq a a = true.
Proof. apply seq_true. reflexivity. Qed.

Lemma sne_true (a b : string) : Js.sne a b = true <-> a <> b.
Proof.
  unfold Js.sne. rewrite negb_true_iff. split.
  - intros H E. apply seq_true in E. unfold Js.seq in E. congruence.
  - intros H. destruct (String.eqb a b) eqn:E; [|reflexivity].
    apply String.eqb_eq in E. contradiction.
Qed.

Lemma sne_seq (a b : string) : Js.sne a b = negb (Js.seq a b).
Proof. reflexivity. Qed.

Lemma lower_char_idem c : Js.lower_char (Js.lower_char c) = Js.lower_char c.
Proof. each_char c; reflexivity. Qed.

Lemma lower_char_not_upper c : Js.is_upper (Js.lower_char c) = false.
Proof. each_char c; reflexivity. Qed.

Lemma tchar_lower c : ContentType.tchar (Js.lower_char c) = ContentType.tchar c.
Proof. each_char c; reflexivity. Qed.

Lemma slash_lower c : Js.is_char 47 (Js.lower_char c) = Js.is_char 47 c.
Proof. each_char c; reflexivity. Qed.

Lemma tchar_not_space c : ContentType.tchar c = true -> Js.is_space c = false.
Proof. each_char c; intros H; solve [reflexivity | discriminate H]. Qed.

Lemma tchar_not_semi c : ContentType.tchar c = true -> Js.is_char 59 c = false.
Proof. each_char c; intros H; solve [reflexivity | discriminate H]. Qed.

Lemma tchar_not_slash c : ContentType.tchar c = true -> Js.is_char 47 c = false.
Proof. each_char c; intros H; solve [reflexivity | discriminate H]. Qed.

Lemma slash_not_space c : Js.is_char 47 c = true -> Js.is_space c = false.
Proof. each_char c; intros H; solve [reflexivity | discriminate H]. Qed.

Lemma slash_not_semi c : Js.is_char 47 c = true -> Js.is_char 59 c = false.
Proof. each_char c; intros H; solve [reflexivity | discriminate H]. Qed.

Lemma is_char_eqb k c : Js.is_char k c = Ascii.eqb c (ascii_of_N k) \/ (256 <= k)%N.
Proof.
  destruct (N.lt_ge_cases k 256) as [Hk | Hk]; [left | right; exact Hk].
  unfold Js.is_char, Js.code.
  destruct (Ascii.eqb c (ascii_of_N k)) eqn:E.
  - apply Ascii.eqb_eq in E. subst c. rewrite N_ascii_embedding by exact Hk.
    apply N.eqb_refl.
  - apply N.eqb_neq. intros H. apply Ascii.eqb_neq in E. apply E.
    rewrite <- H. symmetry. apply ascii_N_embedding.
Qed.

Lemma is_slash c : Js.is_char 47 c = Ascii.eqb c "/".
Proof. destruct (is_char_eqb 47 c) as [H | H]; [exact H | lia]. Qed.

Lemma is_semi c : Js.is_char 59 c = Ascii.eqb c ";".
Proof. destruct (is_char_eqb 59 c) as [H | H]; [exact H | lia]. Qed.

Lemma toLowerCase_idem s : Js.toLowerCase (Js.toLowerCase s) = Js.toLowerCase s.
Proof.
  induction s as [|c r IH]; simpl; [reflexivity|].
  rewrite lower_char_idem, IH. reflexivity.
Qed.

Lemma has_upper_toLowerCase s : Js.has_upper (Js.toLowerCase s) = false.
Proof.
  induction s as [|c r IH]; simpl; [reflexivity|].
  rewrite lower_char_not_upper, IH. reflexivity.
Qed.

Lemma has_upper_app a b :
  Js.has_upper (a ++ b) = Js.has_upper a || Js.has_upper b.
Proof.
  induction a as [|c r IH]; [reflexivity|].
  change (String c r ++ b)%string with (String c (r ++ b)).
  simpl. rewrite IH. apply orb_assoc.
Qed.

Lemma every_app p a b : Js.every p (a ++ b) = Js.every p a && Js.every p b.
Proof.
  induction a as [|c r IH]; [reflexivity|].
  change (String c r ++ b)%string with (String c (r ++ b)).
  simpl. rewrite IH. apply andb_assoc.
Qed.

Lemma every_impl (p q : ascii -> bool) s :
  (forall c, p c = true -> q c = true) ->
  Js.every p s = true -> Js.every q s = true.
Proof.
  intros Hpq. induction s as [|c r IH]; simpl; [reflexivity|].
  intros [Hc Hr]%andb_prop. rewrite (Hpq c Hc), (IH Hr). reflexivity.
Qed.

(** A string without white space is its own trim. *)
Lemma trimStart_head c r :
  Js.is_space c = false -> Js.trimStart (String c r) = String c r.
Proof. intros H. simpl. rewrite H. reflexivity. Qed.

Lemma trimEnd_nospace s :
  Js.every (fun c => negb (Js.is_space c)) s = true -> Js.trimEnd s = s.
Proof.
  induction s as [|c r IH]; simpl; [reflexivity|].
  intros [Hc Hr]%andb_prop. apply negb_true_iff in Hc.
  rewrite Hc, (IH Hr). reflexivity.
Qed.

Lemma trim_nospace s :
  Js.every (fun c => negb (Js.is_space c)) s = true -> Js.trim s = s.
Proof.
  intros H. unfold Js.trim.
  assert (Js.trimStart s = s) as ->.
  { destruct s as [|c r]; [reflexivity|]. simpl in H.
    apply andb_prop in H as [Hc _]. apply negb_true_iff in Hc.
    apply trimStart_head, Hc. }
  apply trimEnd_nospace, H.
Qed.

Lemma trim_all_space s : Js.all_space s = true -> Js.trim s = "".
Proof.
  unfold Js.trim, Js.all_space.
  induction s as [|c r IH]; simpl; [reflexivity|].
  intros [Hc Hr]%andb_prop. rewrite Hc. apply IH, Hr.
Qed.

(** [indexOf] finds nothing exactly when the character is not there. *)
Lemma indexOf_nonneg c s : (Js.indexOf c s = -1 \/ 0 <= Js.indexOf c s)%Z.
Proof.
  induction s as [|d r IH]; simpl; [left; reflexivity|].
  destruct (Ascii.eqb d c); [right; lia|].
  destruct (Js.indexOf c r =? -1)%Z eqn:E; [left; reflexivity|].
  apply Z.eqb_neq in E. right. lia.
Qed.

Lemma indexOf_contains c s :
  (Js.indexOf c s =? -1)%Z = negb (Js.contains c s).
Proof.
  induction s as [|d r IH]; simpl; [reflexivity|].
  destruct (Ascii.eqb d c); simpl; [reflexivity|].
  rewrite <- IH. destruct (Js.indexOf c r =? -1)%Z eqn:E; [reflexivity|].
  apply Z.eqb_neq in E. apply Z.eqb_neq.
  destruct (indexOf_nonneg c r); lia.
Qed.

Lemma contains_count c s : Js.contains c s = negb (Js.count c s =? 0).
Proof.
  induction s as [|d r IH]; simpl; [reflexivity|].
  destruct (Ascii.eqb d c); simpl; [reflexivity | exact IH].
Qed.

Lemma count_app c a b : Js.count c (a ++ b) = Js.count c a + Js.count c b.
Proof.
  induction a as [|d r IH]; [reflexivity|].
  change (String d r ++ b)%string with (String d (r ++ b)).
  simpl. rewrite IH. lia.
Qed.

Lemma count_every_not c p s :
  p c = false -> Js.every p s = true -> Js.count c s = 0.
Proof.
  intros Hc. induction s as [|d r IH]; simpl; [reflexivity|].
  intros [Hd Hr]%andb_prop. rewrite (IH Hr).
  destruct (Ascii.eqb d c) eqn:E; [|reflexivity].
  apply Ascii.eqb_eq in E. subst d. congruence.
Qed.

(** [split] cuts at every separator: one more part than separators. *)
Lemma split_length c s : length (Js.split c s) = S (Js.count c s).
Proof.
  induction s as [|d r IH]; simpl; [reflexivity|].
  destruct (Ascii.eqb d c); simpl; [rewrite IH; reflexivity|].
  destruct (Js.split c r) as [|h t]; simpl in *; [discriminate IH | exact IH].
Qed.

Lemma split_none c s : Js.count c s = 0 -> Js.split c s = [s].
Proof.
  induction s as [|d r IH]; simpl; [reflexivity|].
  destruct (Ascii.eqb d c); simpl; [discriminate|].
  intros H. rewrite (IH H). reflexivity.
Qed.

Lemma split_app c a b :
  Js.count c a = 0 -> Js.split c (a ++ String c b) = a :: Js.split c b.
Proof.
  induction a as [|d r IH]; intros H.
  - change (Js.split c (String c b) = "" :: Js.split c b).
    simpl. rewrite Ascii.eqb_refl. reflexivity.
  - change (String d r ++ String c b)%string with (String d (r ++ String c b)).
    simpl in *. destruct (Ascii.eqb d c); [discriminate H|].
    rewrite (IH H). reflexivity.
Qed.

(** Two parts: the string is the parts around one separator. *)
Lemma split_two_inv c s x y :
  Js.split c s = [x; y] ->
  s = (x ++ String c y)%string /\ Js.count c x = 0 /\ Js.count c y = 0.
Proof.
  revert x. induction s as [|d r IH]; intros x; simpl; [discriminate|].
  destruct (Ascii.eqb d c) eqn:E.
  - apply Ascii.eqb_eq in E. subst d. intros H. injection H as <- Hr.
    assert (Js.count c r = 0) as Hc.
    { pose proof (split_length c r) as L. rewrite Hr in L. simpl in L. lia. }
    rewrite (split_none c r Hc) in Hr. injection Hr as ->.
    repeat split. exact Hc.
  - destruct (Js.split c r) as [|h t] eqn:Er; [discriminate|].
    intros H. injection H as <- ->.
    destruct (IH h eq_refl) as (-> & Hh & Hy).
    repeat split; [simpl; rewrite E; exact Hh | exact Hy].
Qed.

(* ===================================================================== *)
(** ** Facts about the media-type grammar *)
(* ===================================================================== *)

Lemma span_tchar_spec s :
  s = (fst (ContentType.span_tchar s) ++ snd (ContentType.span_tchar s))%string
  /\ ContentType.all_tchar (fst (ContentType.span_tchar s)) = true.
Proof.
  induction s as [|c r [IH1 IH2]]; simpl; [split; reflexivity|].
  destruct (ContentType.tchar c) eqn:Hc; [|split; reflexivity].
  destruct (ContentType.span_tchar r) as [tok rest]; simpl in *.
  split; [rewrite IH1 at 1; reflexivity|].
  unfold ContentType.all_tchar in *. simpl. rewrite Hc, IH2. reflexivity.
Qed.

Lemma span_tchar_app tok c rest :
  ContentType.all_tchar tok = true -> ContentType.tchar c = false ->
  ContentType.span_tchar (tok ++ String c rest) = (tok, String c rest).
Proof.
  unfold ContentType.all_tchar.
  induction tok as [|d r IH]; intros Ht Hc.
  - change (ContentType.span_tchar (String c rest) = ("", String c rest)).
    simpl. rewrite Hc. reflexivity.
  - change (String d r ++ String c rest)%string
      with (String d (r ++ String c rest)).
    simpl in *. apply andb_prop in Ht as [Hd Hr].
    rewrite Hd, (IH Hr Hc). reflexivity.
Qed.

Lemma span_tchar_lower s :
  ContentType.span_tchar (Js.toLowerCase s)
  = (Js.toLowerCase (fst (ContentType.span_tchar s)),
     Js.toLowerCase (snd (ContentType.span_tchar s))).
Proof.
  induction s as [|c r IH]; simpl; [reflexivity|].
  rewrite tchar_lower. destruct (ContentType.tchar c); [|reflexivity].
  rewrite IH. destruct (ContentType.span_tchar r); reflexivity.
Qed.

Lemma toLowerCase_empty s : Js.seq (Js.toLowerCase s) "" = Js.seq s "".
Proof. destruct s; reflexivity. Qed.

Lemma every_tchar_lower s :
  Js.every ContentType.tchar (Js.toLowerCase s) = Js.every ContentType.tchar s.
Proof.
  induction s as [|c r IH]; simpl; [reflexivity|].
  rewrite tchar_lower, IH. reflexivity.
Qed.

Lemma TOKEN_REGEXP_lower s :
  ContentType.TOKEN_REGEXP_test (Js.toLowerCase s) = ContentType.TOKEN_REGEXP_test s.
Proof.
  unfold ContentType.TOKEN_REGEXP_test, ContentType.all_tchar.
  rewrite sne_seq, toLowerCase_empty, every_tchar_lower. reflexivity.
Qed.

(** Lowercasing keeps a string inside or outside the media-type shape. *)
Lemma TYPE_REGEXP_lower s :
  ContentType.TYPE_REGEXP_test (Js.toLowerCase s) = ContentType.TYPE_REGEXP_test s.
Proof.
  unfold ContentType.TYPE_REGEXP_test. rewrite span_tchar_lower.
  destruct (ContentType.span_tchar s) as [ty rest]; simpl.
  destruct rest as [|c sub]; simpl; [reflexivity|].
  rewrite slash_lower, sne_seq, toLowerCase_empty, <- sne_seq.
  rewrite TOKEN_REGEXP_lower. reflexivity.
Qed.

(** The shape [TYPE_REGEXP] accepts, spelled out. *)
Lemma TYPE_REGEXP_inv s :
  ContentType.TYPE_REGEXP_test s = true ->
  exists ty sub,
    s = (ty ++ String "/" sub)%string /\ ty <> "" /\ sub <> ""
    /\ ContentType.all_tchar ty = true /\ ContentType.all_tchar sub = true.
Proof.
  unfold ContentType.TYPE_REGEXP_test. intros H.
  destruct (span_tchar_spec s) as [Hs Hty].
  destruct (ContentType.span_tchar s) as [ty rest]; simpl in *.
  destruct rest as [|c sub]; [discriminate|].
  apply andb_prop in H as [H Hsub]. apply andb_prop in H as [Hne Hc].
  unfold ContentType.TOKEN_REGEXP_test in Hsub.
  apply andb_prop in Hsub as [Hsub1 Hsub2].
  rewrite is_slash in Hc. apply Ascii.eqb_eq in Hc. subst c.
  exists ty, sub. repeat split; try assumption; by apply sne_true.
Qed.

Lemma TYPE_REGEXP_intro ty sub :
  ty <> "" -> sub <> "" ->
  ContentType.all_tchar ty = true -> ContentType.all_tchar sub = true ->
  ContentType.TYPE_REGEXP_test (ty ++ String "/" sub) = true.
Proof.
  intros Hty Hsub Aty Asub. unfold ContentType.TYPE_REGEXP_test.
  rewrite span_tchar_app by (exact Aty || reflexivity).
  unfold ContentType.TOKEN_REGEXP_test.
  apply sne_true in Hty, Hsub. rewrite Hty, Hsub, Asub. reflexivity.
Qed.

Lemma TYPE_REGEXP_media s :
  ContentType.TYPE_REGEXP_test s = true -> Js.every media_char s = true.
Proof.
  intros (ty & sub & -> & _ & _ & Hty & Hsub)%TYPE_REGEXP_inv.
  unfold ContentType.all_tchar in *.
  rewrite every_app. simpl. apply andb_true_intro. split.
  - eapply every_impl; [|exact Hty]. intros c Hc. unfold media_char.
    rewrite Hc. reflexivity.
  - eapply every_impl; [|exact Hsub]. intros c Hc. unfold media_char.
    rewrite Hc. reflexivity.
Qed.

Lemma TYPE_REGEXP_nonempty s :
  ContentType.TYPE_REGEXP_test s = true -> s <> "".
Proof. intros H ->. discriminate H. Qed.

(** A well-formed media type has exactly one slash. *)
Lemma TYPE_REGEXP_one_slash s :
  ContentType.TYPE_REGEXP_test s = true -> Js.count "/" s = 1.
Proof.
  intros (ty & sub & -> & _ & _ & Hty & Hsub)%TYPE_REGEXP_inv.
  rewrite count_app. simpl.
  rewrite (count_every_not "/" ContentType.tchar ty eq_refl Hty).
  rewrite (count_every_not "/" ContentType.tchar sub eq_refl Hsub).
  reflexivity.
Qed.

Lemma media_char_not_space s :
  Js.every media_char s = true ->
  Js.every (fun c => negb (Js.is_space c)) s = true.
Proof.
  apply every_impl. intros c [H | H]%orb_prop; apply negb_true_iff.
  - apply tchar_not_space, H.
  - apply slash_not_space, H.
Qed.

Lemma cut_semi_media s :
  Js.every media_char s = true -> ContentType.cut_semi s = (s, None).
Proof.
  induction s as [|c r IH]; simpl; [reflexivity|].
  intros [Hc Hr]%andb_prop.
  assert (Js.is_char 59 c = false) as ->.
  { apply orb_prop in Hc as [H | H];
      [apply tchar_not_semi | apply slash_not_semi]; exact H. }
  rewrite (IH Hr). reflexivity.
Qed.

Lemma media_char_no_semi s :
  Js.every media_char s = true -> Js.contains ";" s = false.
Proof.
  induction s as [|c r IH]; simpl; [reflexivity|].
  intros [Hc Hr]%andb_prop. rewrite (IH Hr), <- is_semi, orb_false_r.
  apply orb_prop in Hc as [H | H];
    [apply tchar_not_semi | apply slash_not_semi]; exact H.
Qed.

(** The head of a header holds every slash the header has before its
    first semicolon; [cut_semi] loses nothing. *)
Lemma cut_semi_spec s :
  s = (fst (ContentType.cut_semi s)
       ++ match snd (ContentType.cut_semi s) with
          | Some t => t
          | None => ""
          end)%string
  /\ Js.contains ";" (fst (ContentType.cut_semi s)) = false.
Proof.
  induction s as [|c r [IH1 IH2]]; simpl; [split; reflexivity|].
  destruct (Js.is_char 59 c) eqn:Hc; [split; reflexivity|].
  destruct (ContentType.cut_semi r) as [h t]; simpl in *.
  split; [rewrite IH1 at 1; reflexivity|].
  rewrite IH2, <- is_semi, Hc. reflexivity.
Qed.

(* ===================================================================== *)
(** ** Facts about [normalizeType] and [tryNormalizeType] *)
(* ===================================================================== *)

Lemma format_bare ty :
  ContentType.TYPE_REGEXP_test ty = true ->
  ContentType.format (ContentType.mk ty []) = Ret ty.
Proof.
  intros H. unfold ContentType.format. simpl. rewrite H.
  assert (Js.seq ty "" = false) as ->; [|reflexivity].
  destruct ty; [discriminate H | reflexivity].
Qed.

Lemma parse_inv v obj :
  ContentType.parse v = Ret obj ->
  exists s, v = VString s /\ s <> ""
    /\ ContentType.TYPE_REGEXP_test (media_part s) = true
    /\ ContentType.type obj = Js.toLowerCase (media_part s).
Proof.
  unfold ContentType.parse. destruct (falsy v) eqn:Hf; [discriminate|].
  destruct v; try discriminate. intros H. exists s. revert H.
  split; [reflexivity|]. split; [intros ->; discriminate Hf|].
  revert H. unfold media_part.
  destruct (ContentType.cut_semi s) as [head tail]; simpl.
  destruct (ContentType.TYPE_REGEXP_test (Js.trim head)) eqn:Hty;
    simpl; [|discriminate].
  intros H. split; [reflexivity|].
  destruct tail as [rest|].
  - destruct (ContentType.parse_parameters _ rest []); simpl in H;
      [|discriminate]. injection H as <-. reflexivity.
  - injection H as <-. reflexivity.
Qed.

(** What [normalizeType] returns: the media part of the header in lower
    case, which is a well-formed media type. *)
Lemma normalizeType_inv v a :
  normalizeType v = Ret a ->
  exists s, v = VString s /\ s <> ""
    /\ ContentType.TYPE_REGEXP_test (media_part s) = true
    /\ a = Js.toLowerCase (media_part s).
Proof.
  unfold normalizeType.
  destruct (ContentType.parse v) as [obj|e] eqn:Hp; simpl; [|discriminate].
  destruct (parse_inv v obj Hp) as (s & -> & Hne & Hty & Hobj).
  rewrite Hobj, format_bare by (rewrite TYPE_REGEXP_lower; exact Hty).
  intros H. injection H as <-. exists s. repeat split; assumption.
Qed.

Lemma normalizeType_valid v a :
  normalizeType v = Ret a ->
  ContentType.TYPE_REGEXP_test a = true /\ Js.toLowerCase a = a.
Proof.
  intros (s & _ & _ & Hty & ->)%normalizeType_inv. split.
  - rewrite TYPE_REGEXP_lower. exact Hty.
  - apply toLowerCase_idem.
Qed.

(** A well-formed media type in lower case normalizes to itself. *)
Lemma normalizeType_fixed a :
  ContentType.TYPE_REGEXP_test a = true -> Js.toLowerCase a = a ->
  normalizeType (VString a) = Ret a.
Proof.
  intros Hty Hlow. pose proof (TYPE_REGEXP_media a Hty) as Hm.
  unfold normalizeType, ContentType.parse.
  assert (falsy (VString a) = false) as ->.
  { destruct a; [discriminate Hty | reflexivity]. }
  rewrite (cut_semi_media a Hm), (trim_nospace a (media_char_not_space a Hm)).
  rewrite Hty, Hlow. simpl. apply format_bare, Hty.
Qed.

Lemma tryNormalizeType_Some v a :
  tryNormalizeType v = Some a <-> normalizeType v = Ret a.
Proof.
  unfold tryNormalizeType. split.
  - destruct (falsy v); [discriminate|].
    destruct (normalizeType v); simpl; [|discriminate]. congruence.
  - intros H. destruct (normalizeType_inv v a H) as (s & -> & Hne & _).
    rewrite H. destruct s; [contradiction | reflexivity].
Qed.


(** A header without a media part of the right shape is refused. *)
Lemma tryNormalizeType_None s :
  ContentType.TYPE_REGEXP_test (media_part s) = false ->
  tryNormalizeType (VString s) = None.
Proof.
  intros H. destruct (tryNormalizeType (VString s)) as [a|] eqn:E; [|reflexivity].
  apply tryNormalizeType_Some, normalizeType_inv in E
    as (s' & [= <-] & _ & Hty & _). congruence.
Qed.

Lemma actual_valid v a :
  tryNormalizeType v = Some a ->
  ContentType.TYPE_REGEXP_test a = true /\ Js.toLowerCase a = a
  /\ Js.has_upper a = false /\ Js.seq a "" = false.
Proof.
  intros [Hty Hlow]%tryNormalizeType_Some%normalizeType_valid.
  repeat split; try assumption.
  - rewrite <- Hlow. apply has_upper_toLowerCase.
  - destruct a; [discriminate Hty | reflexivity].
Qed.

(** *** The fuel of the parameter loop is enough *)

Lemma skip_sp_length s :
  String.length (ContentType.skip_sp s) <= String.length s.
Proof.
  induction s as [|c r IH]; simpl; [lia|].
  destruct (Js.is_char 32 c); simpl; lia.
Qed.

Lemma span_tchar_length s :
  String.length (snd (ContentType.span_tchar s)) <= String.length s.
Proof.
  induction s as [|c r IH]; simpl; [lia|].
  destruct (ContentType.tchar c); [|simpl; lia].
  destruct (ContentType.span_tchar r); simpl in *. lia.
Qed.

Lemma scan_quoted_length s q rest :
  ContentType.scan_quoted s = Some (q, rest) ->
  String.length rest < String.length s.
Proof.
  remember (String.length s) as n eqn:Hn. revert s q rest Hn.
  induction n as [n IH] using lt_wf_ind. intros s q rest ->.
  destruct s as [|c r]; simpl; [discriminate|].
  destruct (Ascii.eqb c ContentType.DQUOTE); [intros [= _ <-]; lia|].
  destruct (Ascii.eqb c ContentType.BACKSLASH).
  - destruct r as [|d r']; [discriminate|].
    destruct (ContentType.qpair d); [|discriminate].
    destruct (ContentType.scan_quoted r') as [[q' rest']|] eqn:E; [|discriminate].
    intros [= _ <-].
    pose proof (IH (String.length r') ltac:(simpl; lia) r' q' rest' eq_refl E).
    simpl. lia.
  - destruct (ContentType.qdtext c); [|discriminate].
    destruct (ContentType.scan_quoted r) as [[q' rest']|] eqn:E; [|discriminate].
    intros [= _ <-].
    pose proof (IH (String.length r) ltac:(simpl; lia) r q' rest' eq_refl E).
    lia.
Qed.

Lemma scan_param_shorter s key val rest :
  ContentType.scan_param s = Some (key, val, rest) ->
  String.length rest < String.length s.
Proof.
  unfold ContentType.scan_param. destruct s as [|semi r]; [discriminate|].
  destruct (Js.is_char 59 semi); [|discriminate].
  pose proof (span_tchar_length (ContentType.skip_sp r)) as L1.
  pose proof (skip_sp_length r) as L0.
  destruct (ContentType.span_tchar (ContentType.skip_sp r)) as [k r1].
  simpl in L1. destruct (Js.seq k ""); [discriminate|].
  pose proof (skip_sp_length r1) as L2.
  destruct (ContentType.skip_sp r1) as [|e r2]; [discriminate|].
  destruct (Js.is_char 61 e); [|discriminate].
  pose proof (skip_sp_length r2) as L3.
  destruct (ContentType.skip_sp r2) as [|q r4]; [discriminate|].
  destruct (Ascii.eqb q ContentType.DQUOTE).
  - destruct (ContentType.scan_quoted r4) as [[raw r5]|] eqn:E; [|discriminate].
    apply scan_quoted_length in E. intros [= _ _ <-].
    pose proof (skip_sp_length r5). simpl in *. lia.
  - pose proof (span_tchar_length (String q r4)) as L4.
    destruct (ContentType.span_tchar (String q r4)) as [v r5].
    destruct (Js.seq v ""); [discriminate|]. intros [= _ _ <-].
    pose proof (skip_sp_length r5). simpl in *. lia.
Qed.

Lemma parse_parameters_fuel n m s acc :
  String.length s <= n -> String.length s <= m ->
  ContentType.parse_parameters n s acc = ContentType.parse_parameters m s acc.
Proof.
  revert m s acc. induction n as [|n IH]; intros m s acc Hn Hm.
  - destruct s; [destruct m; reflexivity | simpl in Hn; lia].
  - destruct s as [|c r]; [destruct m; reflexivity|].
    destruct m as [|m]; [simpl in Hm; lia|].
    cbn [ContentType.parse_parameters].
    destruct (ContentType.scan_param (String c r)) as [[[k v] rest]|] eqn:E;
      [|reflexivity].
    apply scan_param_shorter in E. apply IH; lia.
Qed.

(* ===================================================================== *)
(** ** Facts about [normalize], [mimeMatch] and [is] *)
(* ===================================================================== *)

Lemma mimeMatch_strings e a : returns (mimeMatch (VString e) (VString a)).
Proof.
  unfold returns, mimeMatch, call_split, bind.
  repeat match goal with
         | |- context [if ?b then _ else _] => destruct b
         end; eexists; reflexivity.
Qed.

Lemma matched_string s a :
  matched (VString s) a
  = Ret (VString (if Js.startsWith "+" s || Js.contains "*" s then a else s)).
Proof.
  unfold matched, index0, call_indexOf, bind.
  rewrite indexOf_contains, negb_involutive.
  destruct s as [|c r]; simpl.
  - reflexivity.
  - unfold Js.seq. simpl. rewrite andb_true_r.
    destruct (Ascii.eqb c "+"); simpl; [reflexivity|].
    destruct (Ascii.eqb c "*" || Js.contains "*" r); reflexivity.
Qed.

Section Facts.

Variable types : string -> option string.

Lemma lookup_shape path : string_or_false (Mime.lookup types path).
Proof.
  unfold Mime.lookup, string_or_false.
  destruct (Js.seq (Mime.extension path) ""); [left; reflexivity|].
  destruct (types (Mime.extension path)) as [ty|]; [|left; reflexivity].
  destruct (Js.seq ty ""); [left | right; exists ty]; reflexivity.
Qed.

Lemma normalize_shape v : string_or_false (normalize types v).
Proof.
  destruct v; try (left; reflexivity). unfold normalize.
  repeat match goal with
         | |- context [if ?b then _ else _] => destruct b
         end; try (right; eexists; reflexivity).
  apply lookup_shape.
Qed.


Lemma nullish_normalize v :
  nullish (normalize types v) VFalse = normalize types v.
Proof.
  destruct (normalize_shape v) as [-> | [s ->]]; reflexivity.
Qed.

Lemma probe_returns a v : returns (probe types a v).
Proof.
  unfold probe. rewrite nullish_normalize.
  destruct (normalize_shape v) as [-> | [s ->]].
  - exists false. reflexivity.
  - apply mimeMatch_strings.
Qed.

(** Only a string can pass the test. *)
Lemma probe_hit_string a v :
  probe types a v = Ret true -> exists s, v = VString s.
Proof.
  unfold probe. destruct v; try discriminate. intros _. eexists. reflexivity.
Qed.

Lemma is_loop_hit a t later :
  probe types a t = Ret true ->
  is_loop types a (t :: later) = matched t a.
Proof. unfold probe. intros H. simpl. rewrite H. reflexivity. Qed.

Lemma is_loop_miss a t later :
  probe types a t = Ret false ->
  is_loop types a (t :: later) = is_loop types a later.
Proof. unfold probe. intros H. simpl. rewrite H. reflexivity. Qed.

Lemma is_loop_skip a before later :
  Forall (fun t => probe types a t = Ret false) before ->
  is_loop types a (before ++ later) = is_loop types a later.
Proof.
  induction 1 as [|t before Ht _ IH]; [reflexivity|].
  change ((t :: before) ++ later) with (t :: (before ++ later)).
  rewrite is_loop_miss by exact Ht. exact IH.
Qed.

Lemma is_loop_returns a acceptable :
  exists v, is_loop types a acceptable = Ret v /\ string_or_false v.
Proof.
  induction acceptable as [|t later IH].
  - exists VFalse. split; [reflexivity | left; reflexivity].
  - destruct (probe_returns a t) as [[|] Hb].
    + rewrite is_loop_hit by exact Hb.
      destruct (probe_hit_string a t Hb) as [s ->].
      rewrite matched_string. eexists. split; [reflexivity|].
      right. eexists. reflexivity.
    + rewrite is_loop_miss by exact Hb. exact IH.
Qed.

(** No media type: [false], whatever else is passed. *)
Lemma is_invalid arguments :
  tryNormalizeType (nth 0 arguments VUndefined) = None ->
  is_ types arguments = Ret VFalse.
Proof. intros H. unfold is_. rewrite H. reflexivity. Qed.

(** A media type and an array of acceptable types. *)
Lemma is_array v a acceptable more :
  tryNormalizeType v = Some a ->
  is_ types (v :: VArray acceptable :: more)
  = match acceptable with
    | [] => Ret (VString a)
    | _ :: _ => is_loop types a acceptable
    end.
Proof.
  intros H. unfold is_. simpl. rewrite H.
  destruct (actual_valid v a H) as (_ & _ & _ & ->). reflexivity.
Qed.

(** A media type and acceptable types passed one by one. *)
Lemma is_flat v a acceptable :
  tryNormalizeType v = Some a ->
  isArray (nth 0 acceptable VUndefined) = false ->
  is_ types (v :: acceptable)
  = match acceptable with
    | [] => Ret (VString a)
    | _ :: _ => is_loop types a acceptable
    end.
Proof.
  intros H Harr. unfold is_. simpl nth at 1. rewrite H.
  destruct (actual_valid v a H) as (_ & _ & _ & ->).
  change (nth 1 (v :: acceptable) VUndefined)
    with (nth 0 acceptable VUndefined).
  destruct (nth 0 acceptable VUndefined); try discriminate Harr; reflexivity.
Qed.

Lemma is_returns arguments :
  exists v, is_ types arguments = Ret v /\ string_or_false v.
Proof.
  destruct (tryNormalizeType (nth 0 arguments VUndefined)) as [a|] eqn:Ha.
  2:{ rewrite is_invalid by exact Ha. exists VFalse.
      split; [reflexivity | left; reflexivity]. }
  destruct arguments as [|v rest]; [discriminate Ha|]. simpl in Ha.
  assert (forall l, exists r,
             match l with
             | [] => Ret (VString a)
             | _ :: _ => is_loop types a l
             end = Ret r /\ string_or_false r) as Hl.
  { intros [|t l]; [|apply is_loop_returns].
    eexists. split; [reflexivity | right; eexists; reflexivity]. }
  destruct (isArray (nth 0 rest VUndefined)) eqn:Harr.
  - destruct rest as [|[] more]; try discriminate Harr.
    rewrite (is_array v a items more Ha). apply Hl.
  - rewrite (is_flat v a rest Ha Harr). apply Hl.
Qed.


End Facts.

(* ===================================================================== *)
(** ** The header-level decision *)
(* ===================================================================== *)

Lemma hasBody_content_type headers ct :
  hasBody (<["content-type" := ct]> headers) = hasBody headers.
Proof.
  unfold hasBody. rewrite !lookup_insert_ne by discriminate. reflexivity.
Qed.

(** C1: [typeIs] returns [null] exactly when [hasBody] of the headers is
    false, whatever the [content-type] header and the patterns are, and
    otherwise it returns what [is] returns for the [content-type] value
    of the headers (possibly [undefined]) and the same pattern list. *)
Theorem typeIs_null_or_is (types : string -> option string)
  (headers : gmap string string) (patterns : list value) :
  typeIs types headers [VArray patterns]
  = (if hasBody headers
     then is_ types [header headers "content-type"; VArray patterns]
     else Ret VNull)
  /\ (typeIs types headers [VArray patterns] = Ret VNull
      <-> hasBody headers = false)
  /\ (hasBody headers = false ->
      forall ct patterns',
        typeIs types (<["content-type" := ct]> headers) [VArray patterns']
        = Ret VNull).
Proof.
  assert (typeIs types headers [VArray patterns]
          = (if hasBody headers
             then is_ types [header headers "content-type"; VArray patterns]
             else Ret VNull)) as E.
  { unfold typeIs. destruct (hasBody headers); reflexivity. }
  split; [exact E|]. split.
  - rewrite E. destruct (hasBody headers); [|split; reflexivity].
    split; [|discriminate].
    destruct (is_returns types [header headers "content-type"; VArray patterns])
      as (v & -> & [-> | [s ->]]); discriminate.
  - intros H ct patterns'. unfold typeIs.
    rewrite hasBody_content_type, H. reflexivity.
Qed.

Lemma typeIs_null_or_is_witness :
  typeIs Mime.sample (<["content-type" := "image/png"]> {[ "content-type" := "text/html" ]})
    [VArray [VString "*/*"]] = Ret VNull.
Proof.
  destruct (typeIs_null_or_is Mime.sample {[ "content-type" := "text/html" ]}
              [VString "image/*"]) as (_ & _ & Hnull).
  apply Hnull. reflexivity.
Defined.

(** The two calling conventions of [typeIs] agree. *)
Lemma typeIs_flat types headers (patterns : list value) :
  isArray (nth 0 patterns VUndefined) = false ->
  typeIs types headers patterns = typeIs types headers [VArray patterns].
Proof.
  intros H. unfold typeIs. destruct (hasBody headers); [|reflexivity]. simpl.
  destruct (nth 0 patterns VUndefined); try discriminate H; reflexivity.
Qed.

(* ===================================================================== *)
(** ** Body presence *)
(* ===================================================================== *)

Lemma span_digits_all s :
  Js.every StringToNumber.digit s = true ->
  StringToNumber.span_digits s = (s, "").
Proof.
  induction s as [|c r IH]; simpl; [reflexivity|].
  intros [Hc Hr]%andb_prop. rewrite Hc, (IH Hr). reflexivity.
Qed.

Lemma digit_not_space c : StringToNumber.digit c = true -> Js.is_space c = false.
Proof. each_char c; intros H; solve [reflexivity | discriminate H]. Qed.

Lemma digit_not_sign c :
  StringToNumber.digit c = true -> Js.is_char 43 c || Js.is_char 45 c = false.
Proof. each_char c; intros H; solve [reflexivity | discriminate H]. Qed.

(** A string of decimal digits is a number. *)
Lemma digits_numeric s :
  StringToNumber.some_of StringToNumber.digit s = true ->
  StringToNumber.is_numeric s = true.
Proof.
  unfold StringToNumber.some_of. intros [Hne Hd]%andb_prop.
  unfold StringToNumber.is_numeric.
  rewrite trim_nospace.
  2:{ eapply every_impl; [|exact Hd]. intros c Hc.
      rewrite (digit_not_space c Hc). reflexivity. }
  apply orb_true_intro. right. unfold StringToNumber.StrNumericLiteral.
  apply orb_true_intro. right.
  assert (StringToNumber.unsigned s = s) as ->.
  { destruct s as [|c r]; [reflexivity|]. simpl in *.
    apply andb_prop in Hd as [Hc _]. rewrite (digit_not_sign c Hc). reflexivity. }
  unfold StringToNumber.StrUnsignedDecimalLiteral.
  rewrite (span_digits_all s Hd), Hne. apply orb_true_r.
Qed.

(** C6: [hasBody] is true iff the [transfer-encoding] header is there,
    with any value, the empty string too, or the [content-length] header
    is there and converts to a number: every string of digits does, so
    does ["0"], and ["bogus"] does not. *)
Theorem hasBody_iff (headers : gmap string string) :
  (hasBody headers = true <->
   (exists te, headers !! "transfer-encoding" = Some te)
   \/ (exists cl, headers !! "content-length" = Some cl
                  /\ StringToNumber.is_numeric cl = true))
  /\ hasBody (<["transfer-encoding" := ""]> headers) = true
  /\ (forall digits,
         StringToNumber.some_of StringToNumber.digit digits = true ->
         hasBody (<["content-length" := digits]> headers) = true)
  /\ hasBody {[ "content-length" := "0" ]} = true
  /\ hasBody {[ "content-length" := "bogus" ]} = false
  /\ hasBody ∅ = false.
Proof.
  split; [|split; [|split; [|repeat split]]].
  - unfold hasBody, isNaN. rewrite orb_true_iff, bool_decide_eq_true.
    split.
    + intros [H | H].
      * left. destruct (headers !! "transfer-encoding") as [te|];
          [exists te; reflexivity | contradiction].
      * right. destruct (headers !! "content-length") as [cl|];
          [|discriminate H]. exists cl. split; [reflexivity|].
        apply negb_true_iff, negb_false_iff in H. exact H.
    + intros [[te ->] | (cl & -> & H)]; [left; discriminate|].
      right. rewrite H. reflexivity.
  - unfold hasBody. rewrite lookup_insert_eq. reflexivity.
  - intros digits H. unfold hasBody, isNaN. rewrite lookup_insert_eq.
    rewrite (digits_numeric digits H). apply orb_true_r.
Qed.

Lemma hasBody_iff_witness :
  hasBody (<["content-length" := "1024"]> {[ "content-type" := "text/html" ]})
  = true.
Proof.
  destruct (hasBody_iff {[ "content-type" := "text/html" ]})
    as (_ & _ & Hdigits & _).
  apply Hdigits. reflexivity.
Defined.

(** C10: without a [transfer-encoding] header, a [content-length] that is
    empty or white space only still makes [hasBody] true: such a string
    converts to 0, not to NaN. *)
Theorem hasBody_blank_content_length (headers : gmap string string) (cl : string) :
  headers !! "transfer-encoding" = None ->
  headers !! "content-length" = Some cl ->
  Js.all_space cl = true ->
  hasBody headers = true /\ isNaN (Some cl) = false.
Proof.
  intros Hte Hcl Hsp.
  assert (isNaN (Some cl) = false) as Hn.
  { unfold isNaN, StringToNumber.is_numeric.
    rewrite (trim_all_space cl Hsp). reflexivity. }
  split; [|exact Hn].
  unfold hasBody. rewrite Hcl, Hn. apply orb_true_r.
Qed.

Lemma hasBody_blank_content_length_witness :
  hasBody {[ "content-length" := "  " ]} = true
  /\ hasBody {[ "content-length" := "" ]} = true.
Proof.
  split.
  - apply (hasBody_blank_content_length {[ "content-length" := "  " ]} "  ");
      reflexivity.
  - reflexivity.
Defined.

(* ===================================================================== *)
(** ** The wildcard matcher *)
(* ===================================================================== *)

Lemma substring_all s : String.substring 0 (String.length s) s = s.
Proof. induction s as [|c r IH]; simpl; [reflexivity | rewrite IH; reflexivity]. Qed.

Lemma substring_drop n s :
  String.substring n (String.length s - n) s = Js.drop n s.
Proof.
  revert s. induction n as [|n IH]; intros s.
  - rewrite Nat.sub_0_r. simpl. apply substring_all.
  - destruct s as [|c r]; [reflexivity|]. simpl. apply IH.
Qed.

(** [s.slice(n)] for a position inside the string. *)
Lemma slice_from s n :
  n <= String.length s -> Js.slice s (Z.of_nat n) None = Js.drop n s.
Proof.
  intros H. unfold Js.slice, Js.clamp, Js.len.
  assert ((Z.of_nat n <? 0)%Z = false) as -> by lia.
  rewrite Z.min_l by lia.
  replace (Z.to_nat (Z.of_nat (String.length s) - Z.of_nat n))
    with (String.length s - n) by lia.
  rewrite Nat2Z.id. apply substring_drop.
Qed.

(** [s.slice(-n)]: the last [n] characters. *)
Lemma slice_last s n :
  0 < n <= String.length s ->
  Js.slice s (- Z.of_nat n) None = Js.drop (String.length s - n) s.
Proof.
  intros H. unfold Js.slice, Js.clamp, Js.len.
  assert ((- Z.of_nat n <? 0)%Z = true) as -> by lia.
  rewrite Z.max_l by lia.
  replace (Z.to_nat (Z.of_nat (String.length s) + - Z.of_nat n))
    with (String.length s - n) by lia.
  replace (Z.to_nat (Z.of_nat (String.length s)
                     - (Z.of_nat (String.length s) + - Z.of_nat n)))
    with (String.length s - (String.length s - n)) by lia.
  apply substring_drop.
Qed.

Lemma slice_head2 c d r :
  Js.slice (String c (String d r)) 0 (Some 2%Z) = String c (String d "").
Proof.
  unfold Js.slice, Js.clamp, Js.len.
  change (0 <? 0)%Z with false. change (2 <? 0)%Z with false. cbv iota.
  rewrite !Z.min_l by (simpl String.length; lia).
  change (Z.to_nat (2 - 0)) with 2. change (Z.to_nat 0) with 0.
  simpl. destruct r; reflexivity.
Qed.

Lemma split_pair a b :
  Js.count "/" a = 0 -> Js.count "/" b = 0 ->
  Js.split "/" (a ++ String "/" b) = [a; b].
Proof.
  intros Ha Hb. rewrite (split_app "/" a b Ha), (split_none "/" b Hb).
  reflexivity.
Qed.

(** [mimeMatch] on two strings of two segments each. *)
Lemma mimeMatch_pair e0 e1 a0 a1 :
  Js.count "/" e0 = 0 -> Js.count "/" e1 = 0 ->
  Js.count "/" a0 = 0 -> Js.count "/" a1 = 0 ->
  mimeMatch (VString (e0 ++ String "/" e1)) (VString (a0 ++ String "/" a1))
  = Ret ((Js.seq e0 "*" || Js.seq e0 a0)
         && if Js.seq (Js.slice e1 0 (Some 2%Z)) "*+"
            then (Js.len e1 <=? Js.len a1 + 1)%Z
                 && Js.seq (Js.slice e1 1 None) (Js.slice a1 (1 - Js.len e1) None)
            else Js.seq e1 "*" || Js.seq e1 a1).
Proof.
  intros He0 He1 Ha0 Ha1. unfold mimeMatch, call_split, bind.
  rewrite (split_pair e0 e1 He0 He1), (split_pair a0 a1 Ha0 Ha1).
  cbn [length Nat.eqb negb orb nth]. rewrite !sne_seq.
  destruct (Js.seq e0 "*"), (Js.seq e0 a0); simpl; try reflexivity;
    destruct (Js.seq (Js.slice e1 0 (Some 2%Z)) "*+"); try reflexivity;
    destruct (Js.seq e1 "*"), (Js.seq e1 a1); reflexivity.
Qed.

(** C5: for a pattern of two segments whose subtype [suf] starts with
    ["*+"] and an actual media type of two segments, the subtype matches
    iff [len(suf) <= len(actual.subtype) + 1] and [suf] without its [*] is
    the end of the actual subtype, [actual.subtype[len(actual.subtype) -
    (len(suf) - 1):]]; [mimeMatch] is that and the check of the type. *)
Theorem mimeMatch_suffix_wildcard (e0 suf a0 a1 : string) :
  Js.count "/" e0 = 0 -> Js.count "/" suf = 0 ->
  Js.count "/" a0 = 0 -> Js.count "/" a1 = 0 ->
  Js.startsWith "*+" suf = true ->
  exists b,
    mimeMatch (VString (e0 ++ String "/" suf)) (VString (a0 ++ String "/" a1))
    = Ret b
    /\ (b = true <->
        (e0 = "*" \/ e0 = a0)
        /\ String.length suf <= String.length a1 + 1
        /\ Js.drop 1 suf
           = Js.drop (String.length a1 - (String.length suf - 1)) a1).
Proof.
  intros He0 Hsuf Ha0 Ha1 Hpre.
  rewrite (mimeMatch_pair e0 suf a0 a1 He0 Hsuf Ha0 Ha1).
  eexists. split; [reflexivity|].
  destruct suf as [|c [|d r]]; simpl in Hpre;
    [discriminate Hpre | rewrite andb_false_r in Hpre; discriminate Hpre |].
  destruct (Ascii.eqb_spec c "*") as [->|]; [|discriminate Hpre].
  destruct (Ascii.eqb_spec d "+") as [->|]; [|discriminate Hpre].
  clear Hpre. rewrite slice_head2.
  change (Js.seq "*+" "*+") with true. cbv iota.
  rewrite !andb_true_iff, orb_true_iff, !seq_true, Z.leb_le.
  unfold Js.len. set (e1 := String "*" (String "+" r)).
  assert (2 <= String.length e1) as L by (simpl; lia).
  pose proof (slice_from e1 1 ltac:(lia)) as E1.
  change (Z.of_nat 1) with 1%Z in E1. rewrite E1.
  destruct (Nat.le_gt_cases (String.length e1) (String.length a1 + 1))
    as [Hle | Hgt].
  - replace (1 - Z.of_nat (String.length e1))%Z
      with (- Z.of_nat (String.length e1 - 1))%Z by lia.
    rewrite slice_last by lia.
    split; intros (Ht & Hl & Hs); (split; [exact Ht|]); (split; [lia|]);
      exact Hs.
  - split; intros (_ & Hl & _); lia.
Qed.

Lemma mimeMatch_suffix_wildcard_witness :
  exists b,
    mimeMatch (VString "*/*+xml") (VString "text/html+xml") = Ret b
    /\ (b = true <->
        ("*" = "*" \/ "*" = "text")
        /\ String.length "*+xml" <= String.length "html+xml" + 1
        /\ Js.drop 1 "*+xml"
           = Js.drop (String.length "html+xml" - (String.length "*+xml" - 1))
               "html+xml").
Proof.
  apply (mimeMatch_suffix_wildcard "*" "*+xml" "text" "html+xml"); reflexivity.
Defined.

Example mimeMatch_suffix_hit :
  mimeMatch (VString "*/*+xml") (VString "text/html+xml") = Ret true.
Proof. reflexivity. Qed.

Example mimeMatch_suffix_miss :
  mimeMatch (VString "*/*+xml") (VString "text/html") = Ret false.
Proof. reflexivity. Qed.

(* ===================================================================== *)
(** ** The type decision *)
(* ===================================================================== *)

(** The first acceptable type that passes the test, with what is before
    and after it. *)
Lemma first_hit types a (acceptable : list value) :
  Exists (fun p => probe types a p = Ret true) acceptable ->
  exists before t later,
    acceptable = before ++ VString t :: later
    /\ Forall (fun p => probe types a p = Ret false) before
    /\ probe types a (VString t) = Ret true.
Proof.
  induction acceptable as [|p l IH]; intros H; [inversion H|].
  destruct (probe_returns types a p) as [[|] Hp].
  - destruct (probe_hit_string types a p Hp) as [t ->].
    exists [], t, l. repeat split; [constructor | exact Hp].
  - assert (Exists (fun p => probe types a p = Ret true) l) as Hl.
    { inversion H as [? ? Hp' | ? ? Hl']; subst; [congruence | exact Hl']. }
    destruct (IH Hl) as (before & t & later & -> & Hb & Ht).
    exists (p :: before), t, later.
    repeat split; [constructor; assumption | exact Ht].
Qed.

(** [is] on an array whose first hit is known. *)
Lemma is_first_hit types v a before t later :
  tryNormalizeType v = Some a ->
  Forall (fun p => probe types a p = Ret false) before ->
  probe types a (VString t) = Ret true ->
  is_ types [v; VArray (before ++ VString t :: later)]
  = Ret (VString (if Js.startsWith "+" t || Js.contains "*" t then a else t)).
Proof.
  intros Ha Hb Ht. rewrite (is_array types v a _ [] Ha).
  destruct (before ++ VString t :: later) eqn:E;
    [destruct before; discriminate E|].
  rewrite <- E, (is_loop_skip types a before _ Hb).
  rewrite (is_loop_hit types a (VString t) later Ht).
  apply matched_string.
Qed.

(** C3: for a valid actual media type and a pattern list in which some
    pattern matches, [is] returns the normalized actual media type when
    the matching token, as the caller wrote it, starts with [+] or has a
    [*] in it, and that token unchanged otherwise. *)
Theorem is_result_of_match (types : string -> option string)
  (v : value) (a : string) (acceptable : list value) :
  tryNormalizeType v = Some a ->
  Exists (fun p => probe types a p = Ret true) acceptable ->
  exists before t later,
    acceptable = before ++ VString t :: later
    /\ Forall (fun p => probe types a p = Ret false) before
    /\ probe types a (VString t) = Ret true
    /\ (Js.startsWith "+" t || Js.contains "*" t = true ->
        is_ types [v; VArray acceptable] = Ret (VString a))
    /\ (Js.startsWith "+" t || Js.contains "*" t = false ->
        is_ types [v; VArray acceptable] = Ret (VString t)).
Proof.
  intros Ha Hex.
  destruct (first_hit types a acceptable Hex) as (before & t & later & -> & Hb & Ht).
  exists before, t, later. repeat split; try assumption.
  - intros H. rewrite (is_first_hit types v a before t later Ha Hb Ht), H.
    reflexivity.
  - intros H. rewrite (is_first_hit types v a before t later Ha Hb Ht), H.
    reflexivity.
Qed.

Lemma is_result_of_match_witness :
  exists before t later,
    [VString "html"; VString ".png"; VString "image/*"]
    = before ++ VString t :: later
    /\ Forall (fun p => probe Mime.sample "image/png" p = Ret false) before
    /\ probe Mime.sample "image/png" (VString t) = Ret true
    /\ (Js.startsWith "+" t || Js.contains "*" t = true ->
        is_ Mime.sample
          [VString "image/PNG; q=1";
           VArray [VString "html"; VString ".png"; VString "image/*"]]
        = Ret (VString "image/png"))
    /\ (Js.startsWith "+" t || Js.contains "*" t = false ->
        is_ Mime.sample
          [VString "image/PNG; q=1";
           VArray [VString "html"; VString ".png"; VString "image/*"]]
        = Ret (VString t)).
Proof.
  apply (is_result_of_match Mime.sample (VString "image/PNG; q=1") "image/png"
           [VString "html"; VString ".png"; VString "image/*"]).
  - reflexivity.
  - apply Exists_cons_tl, Exists_cons_hd. reflexivity.
Defined.


(** C4: for a valid actual media type, the result of [is] is the result
    for the pattern at the lowest index that matches: the value the code
    computes for that pattern, which is a string, the media type or the
    pattern itself; the patterns before it do not match and the patterns
    after it have no effect. *)
Theorem is_first_match_wins (types : string -> option string)
  (v : value) (a : string) (before later : list value) (p : value) :
  tryNormalizeType v = Some a ->
  Forall (fun q => probe types a q = Ret false) before ->
  probe types a p = Ret true ->
  is_ types [v; VArray (before ++ p :: later)] = is_ types [v; VArray [p]]
  /\ (forall later',
         is_ types [v; VArray (before ++ p :: later')]
         = is_ types [v; VArray (before ++ p :: later)])
  /\ is_ types [v; VArray (before ++ p :: later)] = matched p a
  /\ (exists t,
         p = VString t
         /\ is_ types [v; VArray (before ++ p :: later)]
            = Ret (VString (if Js.startsWith "+" t || Js.contains "*" t
                            then a else t)))
  /\ is_ types [v; VArray (before ++ p :: later)] <> Ret VFalse.
Proof.
  intros Ha Hb Hp. destruct (probe_hit_string types a p Hp) as [t ->].
  pose proof (fun l => is_first_hit types v a before t l Ha Hb Hp) as Hhit.
  assert (forall l, is_ types [v; VArray (before ++ VString t :: l)]
                    = is_ types [v; VArray [VString t]]) as H.
  { intros l. rewrite (Hhit l).
    symmetry. exact (is_first_hit types v a [] t [] Ha ltac:(constructor) Hp). }
  split; [apply H|]. split; [intros later'; rewrite !H; reflexivity|].
  split; [rewrite (Hhit later), matched_string; reflexivity|].
  split; [exists t; split; [reflexivity | apply Hhit]|].
  rewrite (Hhit later). discriminate.
Qed.

Lemma is_first_match_wins_witness :
  is_ Mime.sample
    [VString "image/png";
     VArray ([VString "text/*"; VBoolean true]
             ++ VString "png" :: [VString "image/*"; VString "*/*"])]
  = is_ Mime.sample [VString "image/png"; VArray [VString "png"]]
  /\ is_ Mime.sample
       [VString "image/png";
        VArray ([VString "text/*"; VBoolean true]
                ++ VString "png" :: [VString "image/*"; VString "*/*"])]
     = Ret (VString "png").
Proof.
  destruct (is_first_match_wins Mime.sample (VString "image/png") "image/png"
              [VString "text/*"; VBoolean true]
              [VString "image/*"; VString "*/*"] (VString "png"))
    as (Hsame & _ & _ & (t & Et & Hres) & _).
  - reflexivity.
  - repeat constructor.
  - reflexivity.
  - split; [exact Hsame|]. injection Et as <-. exact Hres.
Defined.

(* ===================================================================== *)
(** ** No exception reaches the caller *)
(* ===================================================================== *)


Remark normalizeType_raises :
  normalizeType (VString "text/html; charset")
  = Throw (TypeError "invalid parameter format")
  /\ normalizeType (VString "bogus") = Throw (TypeError "invalid media type")
  /\ normalizeType VObject
     = Throw (TypeError "content-type header is missing from object").
Proof. repeat split. Qed.



(* ===================================================================== *)
(** ** Normalization of the media type *)
(* ===================================================================== *)

(** A header whose media part has the right shape and whose parameters
    parse normalizes to that part in lower case. *)
Lemma normalizeType_intro s :
  s <> "" ->
  ContentType.TYPE_REGEXP_test (media_part s) = true ->
  (forall rest, snd (ContentType.cut_semi s) = Some rest ->
                returns (ContentType.parse_parameters (String.length rest) rest [])) ->
  normalizeType (VString s) = Ret (Js.toLowerCase (media_part s)).
Proof.
  intros Hne Hty Hps. unfold normalizeType, ContentType.parse.
  assert (falsy (VString s) = false) as ->.
  { destruct s; [contradiction | reflexivity]. }
  unfold media_part in *.
  destruct (ContentType.cut_semi s) as [head tail]; simpl in *.
  rewrite Hty. simpl.
  destruct tail as [rest|]; simpl.
  - destruct (Hps rest eq_refl) as [ps ->]. simpl.
    apply format_bare. rewrite TYPE_REGEXP_lower. exact Hty.
  - apply format_bare. rewrite TYPE_REGEXP_lower. exact Hty.
Qed.

(** C8: for every valid media-type string, whatever its casing and its
    parameters, normalization is idempotent: applied to its own output it
    returns that output, and the output has no parameters. *)
Theorem normalizeType_idempotent (s a : string) :
  normalizeType (VString s) = Ret a ->
  normalizeType (VString a) = Ret a
  /\ tryNormalizeType (VString a) = Some a
  /\ Js.contains ";" a = false
  /\ ContentType.parse (VString a) = Ret (ContentType.mk a [])
  /\ a = Js.toLowerCase (media_part s).
Proof.
  intros H. destruct (normalizeType_valid _ _ H) as [Hty Hlow].
  pose proof (TYPE_REGEXP_media a Hty) as Hm.
  assert (normalizeType (VString a) = Ret a) as Hfix
      by (apply normalizeType_fixed; assumption).
  split; [exact Hfix|]. split; [apply tryNormalizeType_Some, Hfix|].
  split; [apply media_char_no_semi, Hm|]. split.
  - unfold ContentType.parse.
    assert (falsy (VString a) = false) as ->.
    { destruct a; [discriminate Hty | reflexivity]. }
    rewrite (cut_semi_media a Hm), (trim_nospace a (media_char_not_space a Hm)).
    rewrite Hty, Hlow. reflexivity.
  - destruct (normalizeType_inv _ _ H) as (s' & [= <-] & _ & _ & ->).
    reflexivity.
Qed.

Lemma normalizeType_idempotent_witness :
  normalizeType (VString "text/html") = Ret "text/html"
  /\ tryNormalizeType (VString "text/html") = Some "text/html"
  /\ Js.contains ";" "text/html" = false
  /\ ContentType.parse (VString "text/html") = Ret (ContentType.mk "text/html" [])
  /\ "text/html" = Js.toLowerCase (media_part "Text/HTML ; Charset=UTF-8; q=1").
Proof.
  apply (normalizeType_idempotent "Text/HTML ; Charset=UTF-8; q=1" "text/html").
  reflexivity.
Defined.

(* ===================================================================== *)
(** ** Actual values without a media type *)
(* ===================================================================== *)

Lemma count_trimStart c s : Js.count c (Js.trimStart s) <= Js.count c s.
Proof.
  induction s as [|d r IH]; simpl; [lia|].
  destruct (Js.is_space d); simpl; lia.
Qed.

Lemma count_trimEnd c s : Js.count c (Js.trimEnd s) <= Js.count c s.
Proof.
  induction s as [|d r IH]; simpl; [lia|].
  destruct (Js.is_space d && Js.all_space r); simpl; lia.
Qed.

Lemma count_cut_semi c s :
  Js.count c (fst (ContentType.cut_semi s)) <= Js.count c s.
Proof.
  induction s as [|d r IH]; simpl; [lia|].
  destruct (Js.is_char 59 d); simpl; [lia|].
  destruct (ContentType.cut_semi r); simpl in *. lia.
Qed.

Lemma count_media_part c s : Js.count c (media_part s) <= Js.count c s.
Proof.
  unfold media_part, Js.trim.
  pose proof (count_trimEnd c (Js.trimStart (fst (ContentType.cut_semi s)))).
  pose proof (count_trimStart c (fst (ContentType.cut_semi s))).
  pose proof (count_cut_semi c s). lia.
Qed.

(** A header whose media part has not exactly one slash is refused. *)
Lemma slashes_refused s :
  Js.count "/" (media_part s) <> 1 -> tryNormalizeType (VString s) = None.
Proof.
  intros H. apply tryNormalizeType_None.
  destruct (ContentType.TYPE_REGEXP_test (media_part s)) eqn:E; [|reflexivity].
  apply TYPE_REGEXP_one_slash in E. contradiction.
Qed.

(** C2 as stated fails: it has every value without exactly one slash
    refused, but a slash in a quoted parameter value does not count. This
    header has two slashes and [is] answers with its media type. *)
Lemma two_slashes_accepted :
  Js.count "/" quoted_slash_header = 2
  /\ is_ Mime.sample [VString quoted_slash_header; VArray [VString "*/*"]]
     = Ret (VString "text/html")
  /\ is_ Mime.sample [VString quoted_slash_header; VArray [VString "*/*"]]
     <> Ret VFalse.
Proof. repeat split. discriminate. Qed.

(** C2, amended: whatever the patterns are, [is] returns [false] when
    the actual value is empty, [null], [undefined] or fails
    normalization, in particular when the text before its first
    semicolon has not exactly one slash, as in ["bogus"]; and when
    normalization succeeds and the pattern list is empty or absent, [is]
    returns the normalized media type, in lower case and without
    parameters. *)
Theorem is_needs_media_type (types : string -> option string)
  (v : value) (rest : list value) :
  (tryNormalizeType v = None -> is_ types (v :: rest) = Ret VFalse)
  /\ (v = VUndefined \/ v = VNull \/ v = VString "" ->
      is_ types (v :: rest) = Ret VFalse)
  /\ (forall s, v = VString s -> Js.count "/" (media_part s) <> 1 ->
                is_ types (v :: rest) = Ret VFalse)
  /\ (forall s, v = VString s -> Js.count "/" s = 0 ->
                is_ types (v :: rest) = Ret VFalse)
  /\ is_ types [] = Ret VFalse
  /\ (forall a, tryNormalizeType v = Some a ->
                is_ types [v; VArray []] = Ret (VString a)
                /\ is_ types [v] = Ret (VString a)
                /\ (exists s, v = VString s /\ a = Js.toLowerCase (media_part s))
                /\ Js.has_upper a = false
                /\ Js.contains ";" a = false).
Proof.
  assert (tryNormalizeType v = None -> is_ types (v :: rest) = Ret VFalse) as Hnone.
  { intros H. apply is_invalid. exact H. }
  split; [exact Hnone|]. split; [|split; [|split; [|split]]].
  - intros [-> | [-> | ->]]; apply Hnone; reflexivity.
  - intros s -> H. apply Hnone, slashes_refused, H.
  - intros s -> H. apply Hnone, slashes_refused.
    pose proof (count_media_part "/" s). lia.
  - reflexivity.
  - intros a Ha. split; [apply (is_array types v a [] [] Ha)|].
    split; [apply (is_flat types v a [] Ha); reflexivity|].
    destruct (actual_valid v a Ha) as (Hty & _ & Hup & _).
    apply tryNormalizeType_Some in Ha.
    destruct (normalizeType_inv v a Ha) as (s & -> & _ & _ & ->).
    split; [exists s; split; reflexivity|]. split; [exact Hup|].
    apply media_char_no_semi, TYPE_REGEXP_media, Hty.
Qed.

Lemma is_needs_media_type_witness :
  is_ Mime.sample [VString "bogus"; VArray [VString "*/*"]] = Ret VFalse
  /\ is_ Mime.sample [VString "a/b/c; q=1"; VArray [VString "*/*"]] = Ret VFalse
  /\ is_ Mime.sample [VString "Text/HTML; charset=utf-8"; VArray []]
     = Ret (VString "text/html").
Proof.
  split; [|split].
  - destruct (is_needs_media_type Mime.sample (VString "bogus")
                [VArray [VString "*/*"]]) as (_ & _ & _ & H & _).
    apply (H "bogus"); reflexivity.
  - destruct (is_needs_media_type Mime.sample (VString "a/b/c; q=1")
                [VArray [VString "*/*"]]) as (_ & _ & H & _).
    apply (H "a/b/c; q=1"); [reflexivity | vm_compute; lia].
  - destruct (is_needs_media_type Mime.sample (VString "Text/HTML; charset=utf-8")
                []) as (_ & _ & _ & _ & _ & H).
    apply (H "text/html"). reflexivity.
Defined.

(* ===================================================================== *)
(** ** Casing of patterns *)
(* ===================================================================== *)

Lemma has_upper_substring n m s :
  Js.has_upper s = false -> Js.has_upper (String.substring n m s) = false.
Proof.
  revert n m. induction s as [|c r IH]; intros n m H.
  - destruct n, m; reflexivity.
  - simpl in H. apply orb_false_elim in H as [Hc Hr].
    destruct n as [|n]; destruct m as [|m]; simpl; try reflexivity.
    + rewrite Hc. apply IH, Hr.
    + apply IH, Hr.
    + apply IH, Hr.
Qed.

Lemma has_upper_slice s i j :
  Js.has_upper s = false -> Js.has_upper (Js.slice s i j) = false.
Proof. intros H. unfold Js.slice. apply has_upper_substring, H. Qed.

Lemma has_upper_neq a b :
  Js.has_upper a = true -> Js.has_upper b = false -> Js.sne a b = true.
Proof. intros Ha Hb. apply sne_true. intros ->. congruence. Qed.

Lemma slice_head2_inv s :
  Js.seq (Js.slice s 0 (Some 2%Z)) "*+" = true ->
  exists r, s = String "*" (String "+" r).
Proof.
  destruct s as [|c [|d r]].
  - intros H. discriminate H.
  - unfold Js.seq. simpl. destruct (Ascii.eqb c "*"); intros H; discriminate H.
  - rewrite slice_head2. intros [= -> ->]%seq_true. exists r. reflexivity.
Qed.

(** A pattern with a capital letter matches no media type in lower
    case. *)
Lemma mimeMatch_upper e a :
  Js.has_upper e = true -> Js.has_upper a = false ->
  mimeMatch (VString e) (VString a) = Ret false.
Proof.
  intros He Ha. unfold mimeMatch, call_split, bind.
  destruct (Js.split "/" a) as [|a0 [|a1 [|]]] eqn:Sa; try reflexivity.
  destruct (Js.split "/" e) as [|e0 [|e1 [|]]] eqn:Se; try reflexivity.
  cbn [length Nat.eqb negb orb nth].
  destruct (split_two_inv _ _ _ _ Sa) as (-> & _ & _).
  destruct (split_two_inv _ _ _ _ Se) as (-> & _ & _).
  rewrite has_upper_app in He, Ha. simpl in He, Ha.
  apply orb_false_elim in Ha as [Ha0 Ha1].
  destruct (Js.has_upper e0) eqn:He0.
  - rewrite (has_upper_neq e0 "*" He0 eq_refl), (has_upper_neq e0 a0 He0 Ha0).
    reflexivity.
  - simpl in He.
    destruct (Js.sne e0 "*" && Js.sne e0 a0); [reflexivity|].
    destruct (Js.seq (Js.slice e1 0 (Some 2%Z)) "*+") eqn:Hs.
    + destruct (slice_head2_inv e1 Hs) as [r ->].
      pose proof (slice_from (String "*" (String "+" r)) 1
                    ltac:(simpl; lia)) as E1.
      change (Z.of_nat 1) with 1%Z in E1. rewrite E1. simpl Js.drop.
      assert (Js.sne (String "+" r)
                (Js.slice a1 (1 - Js.len (String "*" (String "+" r))) None)
              = true) as Hne.
      { apply has_upper_neq; [exact He | apply has_upper_slice, Ha1]. }
      rewrite sne_seq in Hne. apply negb_true_iff in Hne. rewrite Hne.
      rewrite andb_false_r. reflexivity.
    + rewrite (has_upper_neq e1 "*" He eq_refl), (has_upper_neq e1 a1 He Ha1).
      reflexivity.
Qed.

Lemma contains_indexOf c s :
  Js.contains c s = true -> (Js.indexOf c s =? -1)%Z = false.
Proof. intros H. rewrite indexOf_contains, H. reflexivity. Qed.

(** What [normalize] does with a token that has a slash. *)
Lemma normalize_slash types t :
  Js.contains "/" t = true ->
  normalize types (VString t)
  = VString (if Js.startsWith "+" t then "*/*" ++ t else t)%string.
Proof.
  intros H. unfold normalize.
  assert (Js.seq t "urlencoded" = false) as ->.
  { destruct (Js.seq t "urlencoded") eqn:E; [|reflexivity].
    apply seq_true in E. subst t. discriminate H. }
  assert (Js.seq t "multipart" = false) as ->.
  { destruct (Js.seq t "multipart") eqn:E; [|reflexivity].
    apply seq_true in E. subst t. discriminate H. }
  rewrite (contains_indexOf "/" t H).
  destruct t as [|c r]; [discriminate H|]. simpl.
  unfold Js.seq. simpl. rewrite !andb_true_r.
  destruct (Ascii.eqb c "+"); reflexivity.
Qed.

(** C9 as stated fails in its first sentence: a token with a slash that
    starts with [+] is not passed through unchanged. *)
Lemma plus_slash_token_rewritten :
  Js.contains "/" "+a/B" = true
  /\ normalize Mime.sample (VString "+a/B") = VString "*/*+a/B"
  /\ normalize Mime.sample (VString "+a/B") <> VString "+a/B".
Proof. repeat split. discriminate. Qed.

(** C9, amended: a pattern token with a slash is passed through
    normalization unchanged unless it starts with [+], in which case it
    gets ["*/*"] in front; patterns are compared as they are written and
    the actual media type is always in lower case; hence a token with a
    slash and a capital ASCII letter matches no actual value, and [is]
    returns [false] for the list of that token alone, although a bare
    extension in capitals, as ["JSON"], still matches, the look-up of
    extensions being blind to case. *)
Theorem capital_pattern_never_matches (types : string -> option string)
  (t : string) :
  Js.contains "/" t = true ->
  (Js.startsWith "+" t = false -> normalize types (VString t) = VString t)
  /\ (Js.startsWith "+" t = true ->
      normalize types (VString t) = VString ("*/*" ++ t))
  /\ (forall v a, tryNormalizeType v = Some a -> Js.has_upper a = false)
  /\ (Js.has_upper t = true ->
      forall v, is_ types [v; VArray [VString t]] = Ret VFalse)
  /\ (types "json" = Some "application/json" ->
      is_ types [VString "application/json"; VArray [VString "JSON"]]
      = Ret (VString "JSON")).
Proof.
  intros Hslash. pose proof (normalize_slash types t Hslash) as Hn.
  split; [intros H; rewrite Hn, H; reflexivity|].
  split; [intros H; rewrite Hn, H; reflexivity|].
  split; [intros v a Ha; apply (actual_valid v a Ha)|]. split.
  - intros Hup v.
    destruct (tryNormalizeType v) as [a|] eqn:Ha;
      [|apply is_invalid; exact Ha].
    rewrite (is_array types v a _ [] Ha).
    assert (probe types a (VString t) = Ret false) as Hp.
    { unfold probe. rewrite nullish_normalize, Hn.
      apply mimeMatch_upper; [|apply (actual_valid v a Ha)].
      destruct (Js.startsWith "+" t); [|exact Hup].
      rewrite has_upper_app, Hup. reflexivity. }
    rewrite (is_loop_miss types a _ [] Hp). reflexivity.
  - intros Hjson.
    rewrite (is_array types (VString "application/json") "application/json"
               _ [] eq_refl).
    assert (probe types "application/json" (VString "JSON") = Ret true) as Hp.
    { unfold probe. rewrite nullish_normalize.
      change (normalize types (VString "JSON")) with (Mime.lookup types "JSON").
      unfold Mime.lookup. change (Mime.extension "JSON") with "json".
      rewrite Hjson. reflexivity. }
    rewrite (is_loop_hit types _ _ [] Hp). reflexivity.
Qed.

Lemma capital_pattern_never_matches_witness :
  is_ Mime.sample [VString "text/HTML"; VArray [VString "text/HTML"]] = Ret VFalse
  /\ is_ Mime.sample [VString "application/json"; VArray [VString "JSON"]]
     = Ret (VString "JSON").
Proof.
  split.
  - destruct (capital_pattern_never_matches Mime.sample "text/HTML" eq_refl)
      as (_ & _ & _ & H & _).
    apply H. reflexivity.
  - destruct (capital_pattern_never_matches Mime.sample "a/b" eq_refl)
      as (_ & _ & _ & _ & H).
    apply H. reflexivity.
Defined.

(* ===================================================================== *)
(** ** Further properties of the matcher *)
(* ===================================================================== *)

Lemma length_app (a b : string) :
  String.length (a ++ b) = String.length a + String.length b.
Proof.
  induction a as [|c r IH]; [reflexivity|].
  change (String c r ++ b)%string with (String c (r ++ b)).
  simpl. rewrite IH. reflexivity.
Qed.

Lemma contains_app c a b :
  Js.contains c (a ++ b) = Js.contains c a || Js.contains c b.
Proof.
  induction a as [|d r IH]; [reflexivity|].
  change (String d r ++ b)%string with (String d (r ++ b)).
  simpl. rewrite IH. apply orb_assoc.
Qed.

Lemma drop_app_length (a b : string) : Js.drop (String.length a) (a ++ b) = b.
Proof.
  induction a as [|c r IH]; [destruct b; reflexivity|].
  change (String c r ++ b)%string with (String c (r ++ b)).
  simpl. exact IH.
Qed.

Lemma drop_cut n s :
  n <= String.length s ->
  exists pre, s = (pre ++ Js.drop n s)%string /\ String.length pre = n.
Proof.
  revert s. induction n as [|n IH]; intros s H.
  - exists "". split; [destruct s; reflexivity | reflexivity].
  - destruct s as [|c r]; [simpl in H; lia|].
    destruct (IH r ltac:(simpl in H; lia)) as (pre & E & L).
    exists (String c pre). split; [|simpl; rewrite L; reflexivity].
    change (String c pre ++ Js.drop (S n) (String c r))%string
      with (String c (pre ++ Js.drop n r)).
    rewrite <- E. reflexivity.
Qed.

Lemma drop_length n s : String.length (Js.drop n s) = String.length s - n.
Proof.
  revert s. induction n as [|n IH]; intros s; [simpl; lia|].
  destruct s as [|c r]; [reflexivity|]. simpl. apply IH.
Qed.

(** A string with one slash is two segments around it. *)
Lemma two_segments a :
  Js.count "/" a = 1 ->
  exists a0 a1, a = (a0 ++ String "/" a1)%string
                /\ Js.count "/" a0 = 0 /\ Js.count "/" a1 = 0.
Proof.
  intros H. pose proof (split_length "/" a) as L. rewrite H in L.
  destruct (Js.split "/" a) as [|a0 [|a1 [|]]] eqn:E; try discriminate L.
  exists a0, a1. apply (split_two_inv _ _ _ _ E).
Qed.

Lemma mimeMatch_malformed e a :
  Js.count "/" e <> 1 \/ Js.count "/" a <> 1 ->
  mimeMatch (VString e) (VString a) = Ret false.
Proof.
  intros H. unfold mimeMatch, call_split, bind. rewrite !split_length.
  change (S (Js.count "/" a) =? 2) with (Js.count "/" a =? 1).
  change (S (Js.count "/" e) =? 2) with (Js.count "/" e =? 1).
  destruct (Nat.eqb_spec (Js.count "/" a) 1) as [Ea|Ea];
    destruct (Nat.eqb_spec (Js.count "/" e) 1) as [Ee|Ee];
    try reflexivity.
  destruct H; contradiction.
Qed.

Lemma mimeMatch_true_segments e a :
  mimeMatch (VString e) (VString a) = Ret true ->
  Js.count "/" e = 1 /\ Js.count "/" a = 1.
Proof.
  intros H.
  destruct (Nat.eq_dec (Js.count "/" e) 1) as [Ee|Ee];
    [destruct (Nat.eq_dec (Js.count "/" a) 1) as [Ea|Ea]|].
  - split; assumption.
  - rewrite mimeMatch_malformed in H by (right; exact Ea). discriminate H.
  - rewrite mimeMatch_malformed in H by (left; exact Ee). discriminate H.
Qed.

(** The subtype test of a suffix pattern, as a statement about the end
    of the actual subtype. *)
Lemma suffix_test r a1 :
  (Js.len (String "*" (String "+" r)) <=? Js.len a1 + 1)%Z
  && Js.seq (Js.slice (String "*" (String "+" r)) 1 None)
            (Js.slice a1 (1 - Js.len (String "*" (String "+" r))) None)
  = true
  <-> exists pre, a1 = (pre ++ String "+" r)%string.
Proof.
  set (e1 := String "*" (String "+" r)).
  assert (String.length e1 = S (S (String.length r))) as Le by reflexivity.
  pose proof (slice_from e1 1 ltac:(lia)) as E1.
  change (Z.of_nat 1) with 1%Z in E1. rewrite E1.
  change (Js.drop 1 e1) with (String "+" r).
  rewrite andb_true_iff, Z.leb_le, seq_true. unfold Js.len. split.
  - intros [Hl Hs].
    replace (1 - Z.of_nat (String.length e1))%Z
      with (- Z.of_nat (String.length e1 - 1))%Z in Hs by lia.
    rewrite slice_last in Hs by lia.
    destruct (drop_cut (String.length a1 - (String.length e1 - 1)) a1
                ltac:(lia)) as (pre & E & _).
    exists pre. rewrite <- Hs in E. exact E.
  - intros [pre ->]. rewrite length_app.
    change (String.length (String "+" r)) with (S (String.length r)).
    split; [lia|].
    replace (1 - Z.of_nat (String.length e1))%Z
      with (- Z.of_nat (S (String.length r)))%Z by lia.
    rewrite slice_last by (rewrite length_app; simpl; lia).
    rewrite length_app.
    replace (String.length pre + String.length (String "+" r)
             - S (String.length r)) with (String.length pre)
      by (simpl; lia).
    symmetry. apply drop_app_length.
Qed.

Lemma mimeMatch_self (a : string) :
  Js.count "/" a = 1 -> mimeMatch (VString a) (VString a) = Ret true.
Proof.
  intros H. destruct (two_segments a H) as (a0 & a1 & -> & H0 & H1).
  rewrite (mimeMatch_pair a0 a1 a0 a1 H0 H1 H0 H1).
  rewrite !seq_refl, !orb_true_r, andb_true_l.
  destruct (Js.seq (Js.slice a1 0 (Some 2%Z)) "*+") eqn:Hs; [|reflexivity].
  destruct (slice_head2_inv a1 Hs) as [r ->].
  f_equal. apply suffix_test. exists "*". reflexivity.
Qed.

(** X1: a string of two segments matches itself, whatever its
    segments are, a subtype that starts with ["*+"] included. *)
Theorem mimeMatch_reflexive (a : string) :
  Js.count "/" a = 1 -> mimeMatch (VString a) (VString a) = Ret true.
Proof. exact (mimeMatch_self a). Qed.

Lemma mimeMatch_reflexive_witness :
  mimeMatch (VString "application/*+json") (VString "application/*+json")
  = Ret true.
Proof. apply mimeMatch_reflexive. reflexivity. Defined.

(** X2: [mimeMatch] answers [false] as soon as the pattern or the
    actual value has not exactly two segments; a match implies two
    segments on both sides. *)
Theorem mimeMatch_two_segments (e a : string) :
  (Js.count "/" e <> 1 \/ Js.count "/" a <> 1 ->
   mimeMatch (VString e) (VString a) = Ret false)
  /\ (mimeMatch (VString e) (VString a) = Ret true ->
      Js.count "/" e = 1 /\ Js.count "/" a = 1).
Proof.
  split; [apply mimeMatch_malformed | apply mimeMatch_true_segments].
Qed.

Lemma mimeMatch_two_segments_witness :
  mimeMatch (VString "text/html/") (VString "text/html") = Ret false
  /\ mimeMatch (VString "*/*") (VString "bogus") = Ret false.
Proof.
  split.
  - apply (mimeMatch_two_segments "text/html/" "text/html").
    left. vm_compute. lia.
  - apply (mimeMatch_two_segments "*/*" "bogus"). right. vm_compute. lia.
Defined.

Lemma slice_head2_startsWith s :
  Js.seq (Js.slice s 0 (Some 2%Z)) "*+" = Js.startsWith "*+" s.
Proof.
  destruct s as [|c [|d r]].
  - reflexivity.
  - unfold Js.seq. simpl. destruct (Ascii.eqb c "*"); reflexivity.
  - rewrite slice_head2. unfold Js.seq. simpl. reflexivity.
Qed.

Lemma mimeMatch_plain (e0 e1 a0 a1 : string) :
  Js.count "/" e0 = 0 -> Js.count "/" e1 = 0 ->
  Js.count "/" a0 = 0 -> Js.count "/" a1 = 0 ->
  Js.startsWith "*+" e1 = false ->
  mimeMatch (VString (e0 ++ String "/" e1)) (VString (a0 ++ String "/" a1))
  = Ret true
  <-> (e0 = "*" \/ e0 = a0) /\ (e1 = "*" \/ e1 = a1).
Proof.
  intros He0 He1 Ha0 Ha1 Hpre.
  rewrite (mimeMatch_pair e0 e1 a0 a1 He0 He1 Ha0 Ha1).
  rewrite slice_head2_startsWith, Hpre.
  split.
  - intros [= H]. apply andb_prop in H as [Ht Hs].
    apply orb_prop in Ht, Hs. rewrite !seq_true in Ht, Hs. split; assumption.
  - intros [Ht Hs]. f_equal. apply andb_true_intro.
    rewrite !orb_true_iff, !seq_true. split; assumption.
Qed.

(** X3: on two segments each, and a pattern whose subtype does not
    start with ["*+"], [mimeMatch] holds iff the type of the pattern is
    [*] or the actual type, and its subtype is [*] or the actual
    subtype. *)
Theorem mimeMatch_wildcards (e0 e1 a0 a1 : string) :
  Js.count "/" e0 = 0 -> Js.count "/" e1 = 0 ->
  Js.count "/" a0 = 0 -> Js.count "/" a1 = 0 ->
  Js.startsWith "*+" e1 = false ->
  mimeMatch (VString (e0 ++ String "/" e1)) (VString (a0 ++ String "/" a1))
  = Ret true
  <-> (e0 = "*" \/ e0 = a0) /\ (e1 = "*" \/ e1 = a1).
Proof. exact (mimeMatch_plain e0 e1 a0 a1). Qed.

Lemma mimeMatch_wildcards_witness :
  mimeMatch (VString ("text" ++ String "/" "*"))
    (VString ("text" ++ String "/" "html+xml")) = Ret true
  <-> ("text" = "*" \/ "text" = "text") /\ ("*" = "*" \/ "*" = "html+xml").
Proof.
  apply (mimeMatch_wildcards "text" "*" "text" "html+xml"); reflexivity.
Defined.

Lemma mimeMatch_star_star (a : string) :
  mimeMatch (VString "*/*") (VString a) = Ret true <-> Js.count "/" a = 1.
Proof.
  split.
  - intros H. apply (mimeMatch_true_segments "*/*" a H).
  - intros H. destruct (two_segments a H) as (a0 & a1 & -> & H0 & H1).
    apply (mimeMatch_plain "*" "*" a0 a1); try reflexivity; try assumption.
    split; left; reflexivity.
Qed.

(** X4: the pattern [*/*] matches exactly the strings with one slash. *)
Theorem mimeMatch_any (a : string) :
  mimeMatch (VString "*/*") (VString a) = Ret true <-> Js.count "/" a = 1.
Proof. exact (mimeMatch_star_star a). Qed.

Lemma no_star_segments e0 e1 :
  Js.contains "*" (e0 ++ String "/" e1) = false ->
  e0 <> "*" /\ e1 <> "*" /\ Js.startsWith "*+" e1 = false.
Proof.
  rewrite contains_app. simpl. intros [H0 H1]%orb_false_elim.
  repeat split.
  - intros ->. discriminate H0.
  - intros ->. discriminate H1.
  - destruct e1 as [|c r]; [reflexivity|]. simpl in *.
    apply orb_false_elim in H1 as [-> _]. reflexivity.
Qed.

Lemma mimeMatch_literal (e a : string) :
  Js.contains "*" e = false ->
  mimeMatch (VString e) (VString a) = Ret true
  <-> e = a /\ Js.count "/" a = 1.
Proof.
  intros Hstar. split.
  - intros H. destruct (mimeMatch_true_segments e a H) as [Ee Ea].
    split; [|exact Ea].
    destruct (two_segments e Ee) as (e0 & e1 & -> & He0 & He1).
    destruct (two_segments a Ea) as (a0 & a1 & -> & Ha0 & Ha1).
    destruct (no_star_segments e0 e1 Hstar) as (N0 & N1 & Npre).
    apply (mimeMatch_plain e0 e1 a0 a1 He0 He1 Ha0 Ha1 Npre) in H
      as [[? | ->] [? | ->]]; try contradiction.
    reflexivity.
  - intros [-> H]. apply mimeMatch_self, H.
Qed.

(** X5: a pattern without [*] matches one string only, itself, and that
    only if it has two segments: a [*] in the actual value is no
    wildcard. *)
Theorem mimeMatch_exact (e a : string) :
  Js.contains "*" e = false ->
  mimeMatch (VString e) (VString a) = Ret true
  <-> e = a /\ Js.count "/" a = 1.
Proof. exact (mimeMatch_literal e a). Qed.

Lemma mimeMatch_exact_witness :
  mimeMatch (VString "text/html") (VString "text/html") = Ret true
  <-> "text/html" = "text/html" /\ Js.count "/" "text/html" = 1.
Proof. apply (mimeMatch_exact "text/html" "text/html"). reflexivity. Defined.

(* ===================================================================== *)
(** ** Further properties of [is] and [typeIs] *)
(* ===================================================================== *)

Lemma is_flattened types v (pats : list value) :
  isArray (nth 0 pats VUndefined) = false ->
  is_ types (v :: pats) = is_ types [v; VArray pats].
Proof.
  intros H. destruct (tryNormalizeType v) as [a|] eqn:Ha.
  - rewrite (is_flat types v a pats Ha H), (is_array types v a pats [] Ha).
    reflexivity.
  - rewrite !is_invalid by exact Ha. reflexivity.
Qed.

Lemma is_array_more types v (items more : list value) :
  is_ types (v :: VArray items :: more) = is_ types [v; VArray items].
Proof.
  destruct (tryNormalizeType v) as [a|] eqn:Ha.
  - rewrite !(is_array types v a items _ Ha). reflexivity.
  - rewrite !is_invalid by exact Ha. reflexivity.
Qed.

(** X6: patterns passed one by one are the same as the array of them,
    for [is] and for [typeIs], provided the first one is no array; and
    when the first one is an array, what is passed after it is ignored. *)
Theorem flattened_arguments (types : string -> option string)
  (headers : gmap string string) (v : value) (pats : list value) :
  isArray (nth 0 pats VUndefined) = false ->
  is_ types (v :: pats) = is_ types [v; VArray pats]
  /\ typeIs types headers pats = typeIs types headers [VArray pats]
  /\ (forall items more,
         is_ types (v :: VArray items :: more) = is_ types [v; VArray items]
         /\ typeIs types headers (VArray items :: more)
            = typeIs types headers [VArray items]).
Proof.
  intros H. split; [apply is_flattened, H|].
  split; [apply typeIs_flat, H|].
  intros items more. split; [apply is_array_more|]. reflexivity.
Qed.

Lemma flattened_arguments_witness :
  is_ Mime.sample [VString "image/png"; VString "text/*"; VString "png"]
  = is_ Mime.sample [VString "image/png"; VArray [VString "text/*"; VString "png"]].
Proof.
  apply (flattened_arguments Mime.sample ∅ (VString "image/png")
           [VString "text/*"; VString "png"]).
  reflexivity.
Defined.

Lemma probe_undefined types a : probe types a VUndefined = Ret false.
Proof. reflexivity. Qed.

(** X7: an [undefined] passed in the place of the patterns is not an
    omitted argument: for a valid media type, [is(actual)] and
    [typeIs(headers)] return the media type, while [is(actual, undefined)]
    and [typeIs(headers, undefined)] return [false]. *)
Theorem explicit_undefined_is_a_pattern (types : string -> option string)
  (headers : gmap string string) (v : value) (a : string) :
  tryNormalizeType v = Some a ->
  is_ types [v] = Ret (VString a)
  /\ is_ types [v; VUndefined] = Ret VFalse
  /\ (hasBody headers = true -> header headers "content-type" = v ->
      typeIs types headers [] = Ret (VString a)
      /\ typeIs types headers [VUndefined] = Ret VFalse).
Proof.
  intros Ha.
  assert (is_ types [v; VArray []] = Ret (VString a)) as H0
      by apply (is_array types v a [] [] Ha).
  assert (is_ types [v; VArray [VUndefined]] = Ret VFalse) as H1.
  { rewrite (is_array types v a [VUndefined] [] Ha).
    rewrite (is_loop_miss types a VUndefined [] (probe_undefined types a)).
    reflexivity. }
  split; [rewrite (is_flattened types v [] eq_refl); exact H0|].
  split; [rewrite (is_flattened types v [VUndefined] eq_refl); exact H1|].
  intros Hb Hct. unfold typeIs. rewrite Hb, Hct. simpl. split; assumption.
Qed.

Lemma explicit_undefined_is_a_pattern_witness :
  is_ Mime.sample [VString "image/png"] = Ret (VString "image/png")
  /\ is_ Mime.sample [VString "image/png"; VUndefined] = Ret VFalse.
Proof.
  destruct (explicit_undefined_is_a_pattern Mime.sample ∅ (VString "image/png")
              "image/png" eq_refl) as (H0 & H1 & _).
  split; assumption.
Defined.

Lemma miss_or_hit types a (l : list value) :
  Forall (fun p => probe types a p = Ret false) l
  \/ Exists (fun p => probe types a p = Ret true) l.
Proof.
  induction l as [|p l [IH | IH]].
  - left. constructor.
  - destruct (probe_returns types a p) as [[|] Hp].
    + right. apply Exists_cons_hd, Hp.
    + left. constructor; assumption.
  - right. apply Exists_cons_tl, IH.
Qed.

Lemma is_all_miss types v a (l : list value) :
  tryNormalizeType v = Some a -> l <> [] ->
  Forall (fun p => probe types a p = Ret false) l ->
  is_ types [v; VArray l] = Ret VFalse.
Proof.
  intros Ha Hne Hall. rewrite (is_array types v a l [] Ha).
  destruct l as [|p l]; [contradiction|].
  rewrite <- (app_nil_r (p :: l)). apply (is_loop_skip types a _ [] Hall).
Qed.

Lemma is_false_char (types : string -> option string)
  (v : value) (a : string) (l : list value) :
  tryNormalizeType v = Some a ->
  is_ types [v; VArray l] = Ret VFalse
  <-> l <> [] /\ Forall (fun p => probe types a p = Ret false) l.
Proof.
  intros Ha. split.
  - intros H. split.
    + intros ->. rewrite (is_array types v a [] [] Ha) in H. discriminate H.
    + destruct (miss_or_hit types a l) as [Hall | Hex]; [exact Hall|].
      destruct (first_hit types a l Hex) as (before & t & later & -> & Hb & Ht).
      rewrite (is_first_hit types v a before t later Ha Hb Ht) in H.
      discriminate H.
  - intros [Hne Hall]. apply (is_all_miss types v a l Ha Hne Hall).
Qed.

(** X8: for a valid media type, [is] returns [false] exactly when the
    pattern list is not empty and none of its entries matches. *)
Theorem is_false_iff (types : string -> option string)
  (v : value) (a : string) (l : list value) :
  tryNormalizeType v = Some a ->
  is_ types [v; VArray l] = Ret VFalse
  <-> l <> [] /\ Forall (fun p => probe types a p = Ret false) l.
Proof. exact (is_false_char types v a l). Qed.

Lemma is_false_iff_witness :
  is_ Mime.sample [VString "image/png"; VArray [VString "text/*"; VNull]]
  = Ret VFalse
  <-> [VString "text/*"; VNull] <> []
      /\ Forall (fun p => probe Mime.sample "image/png" p = Ret false)
           [VString "text/*"; VNull].
Proof.
  apply (is_false_iff Mime.sample (VString "image/png") "image/png").
  reflexivity.
Defined.

(** What a token that is returned as it is looks like. *)
Lemma verbatim_token types a t :
  probe types a (VString t) = Ret true ->
  Js.startsWith "+" t || Js.contains "*" t = false ->
  t = a \/ Js.contains "/" t = false.
Proof.
  intros Hp Hv. apply orb_false_elim in Hv as [Hplus Hstar].
  destruct (Js.contains "/" t) eqn:Hs; [left | right; reflexivity].
  unfold probe in Hp. rewrite nullish_normalize in Hp.
  rewrite (normalize_slash types t Hs), Hplus in Hp.
  apply (mimeMatch_literal t a Hstar) in Hp as [-> _]. reflexivity.
Qed.

(** X9: a string that [is] returns is the normalized media type or one
    of the entries of the pattern list; an entry is returned only when it
    matches, has no [*] and no leading [+], and an entry that is not the
    media type itself has no slash: it is an extension or an alias. *)
Theorem is_result_origin (types : string -> option string)
  (v : value) (a r : string) (l : list value) :
  tryNormalizeType v = Some a ->
  is_ types [v; VArray l] = Ret (VString r) ->
  r = a
  \/ (In (VString r) l
      /\ probe types a (VString r) = Ret true
      /\ Js.startsWith "+" r = false /\ Js.contains "*" r = false
      /\ Js.contains "/" r = false).
Proof.
  intros Ha H.
  destruct l as [|p l'] eqn:El.
  { rewrite (is_array types v a [] [] Ha) in H. injection H as <-.
    left. reflexivity. }
  rewrite <- El in *. assert (l <> []) as Hne by (rewrite El; discriminate).
  destruct (miss_or_hit types a l) as [Hall | Hex].
  { rewrite (is_all_miss types v a l Ha Hne Hall) in H. discriminate H. }
  destruct (first_hit types a l Hex) as (before & t & later & E & Hb & Ht).
  rewrite E in H. rewrite (is_first_hit types v a before t later Ha Hb Ht) in H.
  destruct (Js.startsWith "+" t || Js.contains "*" t) eqn:Hv;
    injection H as <-; [left; reflexivity|].
  destruct (verbatim_token types a t Ht Hv) as [-> | Hs]; [left; reflexivity|].
  right. apply orb_false_elim in Hv as [Hplus Hstar].
  repeat split; try assumption.
  rewrite E. apply in_or_app. right. left. reflexivity.
Qed.

Lemma is_result_origin_witness :
  "png" = "image/png"
  \/ (In (VString "png") [VString "html"; VString "png"]
      /\ probe Mime.sample "image/png" (VString "png") = Ret true
      /\ Js.startsWith "+" "png" = false /\ Js.contains "*" "png" = false
      /\ Js.contains "/" "png" = false).
Proof.
  apply (is_result_origin Mime.sample (VString "image/png") "image/png" "png"
           [VString "html"; VString "png"]); reflexivity.
Defined.

Lemma actual_one_slash v a :
  tryNormalizeType v = Some a -> Js.count "/" a = 1.
Proof.
  intros H. apply TYPE_REGEXP_one_slash. apply (actual_valid v a H).
Qed.

Lemma is_single types v a t :
  tryNormalizeType v = Some a ->
  is_ types [v; VArray [VString t]]
  = match probe types a (VString t) with
    | Ret true =>
        Ret (VString (if Js.startsWith "+" t || Js.contains "*" t then a else t))
    | _ => Ret VFalse
    end.
Proof.
  intros Ha. destruct (probe_returns types a (VString t)) as [[|] Hp]; rewrite Hp.
  - apply (is_first_hit types v a [] t [] Ha ltac:(constructor) Hp).
  - apply (is_all_miss types v a [VString t] Ha ltac:(discriminate)).
    repeat constructor. exact Hp.
Qed.

(** X10: the pattern [*/*] accepts every valid media type and nothing
    else: [is(actual, ['*/*'])] is [is(actual)], for every actual value. *)
Theorem is_any_is_normalize (types : string -> option string) (v : value) :
  is_ types [v; VArray [VString "*/*"]] = is_ types [v]
  /\ (forall a, tryNormalizeType v = Some a ->
                is_ types [v; VArray [VString "*/*"]] = Ret (VString a))
  /\ (tryNormalizeType v = None ->
      is_ types [v; VArray [VString "*/*"]] = Ret VFalse).
Proof.
  assert (forall a, tryNormalizeType v = Some a ->
                    is_ types [v; VArray [VString "*/*"]] = Ret (VString a)) as Hs.
  { intros a Ha. rewrite (is_single types v a "*/*" Ha).
    assert (probe types a (VString "*/*") = Ret true) as ->; [|reflexivity].
    unfold probe. rewrite nullish_normalize.
    change (normalize types (VString "*/*")) with (VString "*/*").
    apply mimeMatch_star_star, (actual_one_slash v a Ha). }
  split; [|split; [exact Hs | intros H; apply is_invalid; exact H]].
  destruct (tryNormalizeType v) as [a|] eqn:Ha.
  - rewrite (Hs a eq_refl). symmetry. apply (is_flat types v a [] Ha eq_refl).
  - rewrite !is_invalid by exact Ha. reflexivity.
Qed.

Lemma is_any_is_normalize_witness :
  is_ Mime.sample [VString "Text/HTML; charset=utf-8"; VArray [VString "*/*"]]
  = Ret (VString "text/html").
Proof.
  destruct (is_any_is_normalize Mime.sample (VString "Text/HTML; charset=utf-8"))
    as (_ & H & _).
  apply H. reflexivity.
Defined.

(** X11: the normalized media type is accepted as a pattern for itself,
    [is(actual, [is(actual)]) = is(actual)], unless it starts with [+]:
    then the pattern is read as a suffix and does not match. *)
Theorem is_own_type (types : string -> option string) (v : value) (a : string) :
  tryNormalizeType v = Some a ->
  (Js.startsWith "+" a = false ->
   is_ types [v; VArray [VString a]] = Ret (VString a))
  /\ (Js.startsWith "+" a = true ->
      is_ types [v; VArray [VString a]] = Ret VFalse).
Proof.
  intros Ha. pose proof (actual_one_slash v a Ha) as H1.
  assert (Js.contains "/" a = true) as Hs.
  { rewrite contains_count, H1. reflexivity. }
  rewrite (is_single types v a a Ha). unfold probe.
  rewrite nullish_normalize, (normalize_slash types a Hs).
  split; intros Hp; rewrite Hp.
  - rewrite (mimeMatch_self a H1). simpl.
    destruct (Js.contains "*" a); reflexivity.
  - rewrite mimeMatch_malformed; [reflexivity|].
    left. rewrite count_app, H1. simpl. lia.
Qed.

Lemma is_own_type_witness :
  is_ Mime.sample [VString "image/PNG"; VArray [VString "image/png"]]
  = Ret (VString "image/png")
  /\ is_ Mime.sample [VString "+a/b"; VArray [VString "+a/b"]] = Ret VFalse.
Proof.
  split.
  - destruct (is_own_type Mime.sample (VString "image/PNG") "image/png" eq_refl)
      as [H _]. apply H. reflexivity.
  - destruct (is_own_type Mime.sample (VString "+a/b") "+a/b" eq_refl)
      as [_ H]. apply H. reflexivity.
Defined.

Lemma normalize_plus types s :
  normalize types (VString (String "+" s))
  = VString ("*" ++ String "/" (String "*" (String "+" s))).
Proof. reflexivity. Qed.

Lemma probe_suffix types a0 a1 s :
  Js.count "/" a0 = 0 -> Js.count "/" a1 = 0 ->
  probe types (a0 ++ String "/" a1) (VString (String "+" s)) = Ret true
  <-> exists pre, a1 = (pre ++ String "+" s)%string.
Proof.
  intros H0 H1. unfold probe. rewrite nullish_normalize, normalize_plus.
  destruct (Nat.eq_dec (Js.count "/" s) 0) as [Hs | Hs].
  - rewrite (mimeMatch_pair "*" (String "*" (String "+" s)) a0 a1
               eq_refl Hs H0 H1).
    rewrite slice_head2. change (Js.seq "*+" "*+") with true.
    change (Js.seq "*" "*") with true. cbv iota. rewrite orb_true_l, andb_true_l.
    rewrite <- suffix_test. split; [intros [= H]; exact H | intros ->; reflexivity].
  - rewrite mimeMatch_malformed.
    2:{ left. rewrite count_app. simpl. lia. }
    split; [discriminate|]. intros [pre ->].
    rewrite count_app in H1. simpl in H1. lia.
Qed.

(** X12: the shorthand [+suffix] matches exactly the media types whose
    subtype ends with [+suffix], and what [is] then returns is the media
    type, never the shorthand. *)
Theorem is_suffix_shorthand (types : string -> option string)
  (v : value) (a0 a1 s : string) :
  tryNormalizeType v = Some (a0 ++ String "/" a1)%string ->
  Js.count "/" a0 = 0 -> Js.count "/" a1 = 0 ->
  ((exists pre, a1 = (pre ++ String "+" s)%string) ->
   is_ types [v; VArray [VString (String "+" s)]]
   = Ret (VString (a0 ++ String "/" a1)))
  /\ (~ (exists pre, a1 = (pre ++ String "+" s)%string) ->
      is_ types [v; VArray [VString (String "+" s)]] = Ret VFalse).
Proof.
  intros Ha H0 H1. rewrite (is_single types v _ (String "+" s) Ha).
  pose proof (probe_suffix types a0 a1 s H0 H1) as Hiff.
  destruct (probe_returns types (a0 ++ String "/" a1) (VString (String "+" s)))
    as [[|] Hp]; rewrite Hp.
  - split; [reflexivity|]. intros Hn. destruct Hn. apply Hiff. exact Hp.
  - split; [|reflexivity]. intros Hex. apply Hiff in Hex.
    rewrite Hp in Hex. discriminate Hex.
Qed.

Lemma is_suffix_shorthand_witness :
  is_ Mime.sample [VString "application/vnd.api+json"; VArray [VString "+json"]]
  = Ret (VString "application/vnd.api+json").
Proof.
  destruct (is_suffix_shorthand Mime.sample (VString "application/vnd.api+json")
              "application" "vnd.api+json" "json" eq_refl eq_refl eq_refl)
    as [H _].
  apply H. exists "vnd.api". reflexivity.
Defined.

Lemma startsWith_segment p a0 a1 :
  Js.count "/" p = 0 -> Js.count "/" a0 = 0 ->
  Js.startsWith (p ++ String "/" "") (a0 ++ String "/" a1) = Js.seq a0 p.
Proof.
  revert a0. induction p as [|c p IH]; intros a0 Hp Ha.
  - destruct a0 as [|d r]; [reflexivity|].
    change (Js.startsWith (String "/" "") (String d (r ++ String "/" a1))
            = Js.seq (String d r) "").
    simpl in *. destruct (Ascii.eqb d "/"); [discriminate Ha | reflexivity].
  - change (String c p ++ String "/" "")%string
      with (String c (p ++ String "/" "")).
    simpl in Hp. destruct (Ascii.eqb_spec c "/") as [->|Hc]; [discriminate Hp|].
    destruct a0 as [|d r].
    + change (Ascii.eqb "/" c && Js.startsWith (p ++ String "/" "") a1
              = false).
      destruct (Ascii.eqb_spec "/" c) as [E|_]; [|reflexivity].
      symmetry in E. contradiction.
    + change (String d r ++ String "/" a1)%string
        with (String d (r ++ String "/" a1)).
      simpl in Ha. destruct (Ascii.eqb d "/"); [discriminate Ha|].
      change (Ascii.eqb d c
              && Js.startsWith (p ++ String "/" "") (r ++ String "/" a1)
              = Ascii.eqb d c && Js.seq r p).
      rewrite (IH r Hp Ha). reflexivity.
Qed.

(** X13: the alias [multipart] matches exactly the media types whose
    type is [multipart], the alias [urlencoded] exactly
    [application/x-www-form-urlencoded], and on a match [is] returns the
    alias as it was written. *)
Theorem is_aliases (types : string -> option string) (v : value) (a : string) :
  tryNormalizeType v = Some a ->
  is_ types [v; VArray [VString "multipart"]]
  = Ret (if Js.startsWith "multipart/" a then VString "multipart" else VFalse)
  /\ is_ types [v; VArray [VString "urlencoded"]]
     = Ret (if Js.seq a "application/x-www-form-urlencoded"
            then VString "urlencoded" else VFalse).
Proof.
  intros Ha. pose proof (actual_one_slash v a Ha) as H1. split.
  - rewrite (is_single types v a "multipart" Ha). unfold probe.
    rewrite nullish_normalize.
    change (normalize types (VString "multipart"))
      with (VString ("multipart" ++ String "/" "*")).
    destruct (two_segments a H1) as (a0 & a1 & -> & H0 & H1').
    rewrite (mimeMatch_pair "multipart" "*" a0 a1 eq_refl eq_refl H0 H1').
    change ("multipart/") with ("multipart" ++ String "/" "")%string.
    rewrite (startsWith_segment "multipart" a0 a1 eq_refl H0).
    change (Js.seq "multipart" "*") with false.
    change (Js.seq (Js.slice "*" 0 (Some 2%Z)) "*+") with false.
    change (Js.seq "*" "*") with true. cbv iota.
    rewrite orb_false_l, orb_true_l, andb_true_r.
    unfold Js.seq. rewrite (String.eqb_sym "multipart" a0).
    destruct (String.eqb a0 "multipart"); reflexivity.
  - rewrite (is_single types v a "urlencoded" Ha). unfold probe.
    rewrite nullish_normalize.
    change (normalize types (VString "urlencoded"))
      with (VString "application/x-www-form-urlencoded").
    destruct (Js.seq a "application/x-www-form-urlencoded") eqn:E.
    + apply seq_true in E. subst a.
      rewrite (mimeMatch_self "application/x-www-form-urlencoded" eq_refl).
      reflexivity.
    + destruct (mimeMatch_strings "application/x-www-form-urlencoded" a)
        as [[|] Hm]; rewrite Hm; [|reflexivity].
      apply (mimeMatch_literal "application/x-www-form-urlencoded" a eq_refl)
        in Hm as [<- _].
      discriminate E.
Qed.

Lemma is_aliases_witness :
  is_ Mime.sample [VString "multipart/form-data; boundary=x";
                   VArray [VString "multipart"]]
  = Ret (VString "multipart").
Proof.
  destruct (is_aliases Mime.sample (VString "multipart/form-data; boundary=x")
              "multipart/form-data" eq_refl) as [H _].
  exact H.
Defined.



(** X15: with a body and no usable [content-type], that is none, an
    empty one or one that does not parse, [typeIs] returns [false], not
    [null], whatever the patterns are and however they are passed. *)
Theorem typeIs_without_content_type (types : string -> option string)
  (headers : gmap string string) (rest : list value) :
  hasBody headers = true ->
  tryNormalizeType (header headers "content-type") = None ->
  typeIs types headers rest = Ret VFalse
  /\ typeIs types headers rest <> Ret VNull.
Proof.
  intros Hb Hct.
  assert (typeIs types headers rest = Ret VFalse) as H.
  { unfold typeIs. rewrite Hb. simpl. apply is_invalid. exact Hct. }
  split; [exact H|]. rewrite H. discriminate.
Qed.

Lemma typeIs_without_content_type_witness :
  typeIs Mime.sample {[ "content-length" := "12" ]} [VString "*/*"] = Ret VFalse
  /\ typeIs Mime.sample {[ "content-length" := "12" ]} [VString "*/*"] <> Ret VNull.
Proof.
  apply (typeIs_without_content_type Mime.sample {[ "content-length" := "12" ]}
           [VString "*/*"]); reflexivity.
Defined.

(* ===================================================================== *)
(** ** Further properties of [normalize] *)
(* ===================================================================== *)

Lemma first_plus s :
  is_string "+" (match Js.first s with
                 | Some c => VString c
                 | None => VUndefined
                 end) = Js.startsWith "+" s.
Proof. destruct s as [|c r]; [reflexivity|]. unfold is_string, Js.seq. reflexivity. Qed.

(** The rows of the sample registry are media types without [*]. *)
Lemma sample_rows e ty :
  Mime.sample e = Some ty ->
  Js.contains "/" ty = true /\ Js.startsWith "+" ty = false
  /\ Js.contains "*" ty = false.
Proof.
  unfold Mime.sample.
  repeat match goal with
         | |- context [if ?b then _ else _] => destruct b
         end; intros [= <-]; repeat split.
Qed.

(** X16: [normalize] is idempotent, provided the registry holds media
    types (a slash, no leading [+]): normalizing a normalized pattern
    changes nothing, and [false] stays [false]. *)
Theorem normalize_idempotent (types : string -> option string) (v : value) :
  (forall e ty, types e = Some ty ->
                Js.contains "/" ty = true /\ Js.startsWith "+" ty = false) ->
  normalize types (normalize types v) = normalize types v.
Proof.
  intros Hreg. destruct v; try reflexivity.
  unfold normalize at 2 3. rewrite first_plus.
  destruct (Js.seq s "urlencoded") eqn:E1; [reflexivity|].
  destruct (Js.seq s "multipart") eqn:E2; [reflexivity|].
  destruct (Js.startsWith "+" s) eqn:E3; [reflexivity|].
  destruct (Js.indexOf "/" s =? -1)%Z eqn:E4.
  - unfold Mime.lookup.
    destruct (Js.seq (Mime.extension s) ""); [reflexivity|].
    destruct (types (Mime.extension s)) as [ty|] eqn:Et; [|reflexivity].
    destruct (Js.seq ty ""); [reflexivity|].
    destruct (Hreg _ _ Et) as [Hs Hp].
    rewrite (normalize_slash types ty Hs), Hp. reflexivity.
  - unfold normalize. rewrite first_plus, E1, E2, E3, E4. reflexivity.
Qed.

Lemma normalize_idempotent_witness :
  normalize Mime.sample (normalize Mime.sample (VString ".PNG"))
  = normalize Mime.sample (VString ".PNG").
Proof.
  apply normalize_idempotent. intros e ty H.
  destruct (sample_rows e ty H) as (Hs & Hp & _). split; assumption.
Defined.

(** X17: a bare token, with no slash, no [*] and no leading [+], that
    is no alias, is an extension: [is] returns it, as it was written,
    exactly when the registry maps its extension to the actual media type,
    and [false] otherwise. The registry rows are taken to have no [*]. *)
Theorem is_extension_token (types : string -> option string)
  (v : value) (a t : string) :
  (forall e ty, types e = Some ty -> Js.contains "*" ty = false) ->
  tryNormalizeType v = Some a ->
  Js.contains "/" t = false -> Js.contains "*" t = false ->
  Js.startsWith "+" t = false ->
  t <> "urlencoded" -> t <> "multipart" ->
  (is_ types [v; VArray [VString t]] = Ret (VString t)
   <-> Mime.extension t <> "" /\ types (Mime.extension t) = Some a)
  /\ (is_ types [v; VArray [VString t]] = Ret (VString t)
      \/ is_ types [v; VArray [VString t]] = Ret VFalse).
Proof.
  intros Hreg Ha Hslash Hstar Hplus Hu Hm.
  destruct (actual_valid v a Ha) as (_ & _ & _ & Hne).
  pose proof (actual_one_slash v a Ha) as H1.
  assert (normalize types (VString t) = Mime.lookup types t) as Hn.
  { unfold normalize. rewrite first_plus, Hplus.
    apply sne_true in Hu, Hm. rewrite sne_seq in Hu, Hm.
    apply negb_true_iff in Hu, Hm. rewrite Hu, Hm.
    rewrite indexOf_contains, Hslash. reflexivity. }
  rewrite (is_single types v a t Ha). unfold probe.
  rewrite nullish_normalize, Hn, Hplus, Hstar. simpl orb. cbv iota.
  unfold Mime.lookup.
  destruct (Js.seq (Mime.extension t) "") eqn:Ee.
  { apply seq_true in Ee. rewrite Ee. simpl.
    split; [|right; reflexivity].
    split; [discriminate | intros [H _]; contradiction]. }
  assert (Mime.extension t <> "") as Hext.
  { intros E. rewrite E in Ee. discriminate Ee. }
  destruct (types (Mime.extension t)) as [ty|] eqn:Et.
  2:{ simpl. split; [|right; reflexivity].
      split; [discriminate | intros [_ H]; discriminate H]. }
  destruct (Js.seq ty "") eqn:Ety.
  { apply seq_true in Ety. subst ty. simpl. split; [|right; reflexivity].
    split; [discriminate|]. intros [_ [= <-]]. discriminate Hne. }
  destruct (mimeMatch_strings ty a) as [[|] Hmm]; rewrite Hmm.
  - apply (mimeMatch_literal ty a (Hreg _ _ Et)) in Hmm as [-> _].
    split; [|left; reflexivity]. split; [intros _; split; [exact Hext | reflexivity] | reflexivity].
  - split; [|right; reflexivity].
    split; [discriminate|]. intros [_ [= ->]].
    rewrite (mimeMatch_self a H1) in Hmm. discriminate Hmm.
Qed.

Lemma is_extension_token_witness :
  is_ Mime.sample [VString "image/png"; VArray [VString "photo.PNG"]]
  = Ret (VString "photo.PNG")
  <-> Mime.extension "photo.PNG" <> ""
      /\ Mime.sample (Mime.extension "photo.PNG") = Some "image/png".
Proof.
  apply (is_extension_token Mime.sample (VString "image/png") "image/png"
           "photo.PNG").
  - intros e ty H. apply (sample_rows e ty H).
  - reflexivity.
  - reflexivity.
  - reflexivity.
  - reflexivity.
  - discriminate.
  - discriminate.
Defined.

(* ===================================================================== *)
(** ** The order of the patterns *)
(* ===================================================================== *)

(** X18: whether [is] finds a match does not depend on the order of the
    patterns: a permutation of the list turns no [false] into a string
    and no string into [false]; only which string is returned depends on
    the order. *)
Theorem is_match_order_independent (types : string -> option string)
  (v : value) (l l' : list value) :
  l ≡ₚ l' ->
  is_ types [v; VArray l] = Ret VFalse <-> is_ types [v; VArray l'] = Ret VFalse.
Proof.
  intros Hperm. destruct (tryNormalizeType v) as [a|] eqn:Ha.
  - rewrite !(is_false_char types v a _ Ha).
    assert (l = [] <-> l' = []) as Hnil.
    { split; intros ->; [symmetry in Hperm|];
        apply Permutation_nil_r in Hperm; exact Hperm. }
    assert (Forall (fun p => probe types a p = Ret false) l
            <-> Forall (fun p => probe types a p = Ret false) l') as Hall.
    { split; intros H; [rewrite <- Hperm | rewrite Hperm]; exact H. }
    tauto.
  - rewrite !is_invalid by exact Ha. tauto.
Qed.

Lemma is_match_order_independent_witness :
  is_ Mime.sample [VString "image/png"; VArray [VString "png"; VString "image/*"]]
  = Ret VFalse
  <-> is_ Mime.sample [VString "image/png"; VArray [VString "image/*"; VString "png"]]
      = Ret VFalse.
Proof.
  apply is_match_order_independent. apply perm_swap.
Defined.

Example order_decides_the_string :
  is_strings "image/png" ["png"; "image/*"] = Ret (VString "png")
  /\ is_strings "image/png" ["image/*"; "png"] = Ret (VString "image/png").
Proof. repeat split. Qed.
